(** * gateway_v2_trail: the pricing and payment server (src/server.js)

    A shallow embedding of the Express handlers of [src/server.js] and of
    the in-memory variant [src/unnamed/part_000], with the theorems that
    settle the statements of the specification about them.

    Conventions of the embedding.
    - A JavaScript string is a [string]; one [ascii] stands for one code
      unit below 256 (the Latin-1 range).  Code units above that range are
      removed by [sanitizeString] and never occur in a status word, so the
      handlers treat them like any other excluded character.
    - A JavaScript number is an IEEE 754 binary64 value, [spec_float] with
      the operations of [SpecFloat] at precision 53.
    - A request field is a JSON value, [JUndefined] when the field is absent.
    - The remote store is a value of type [store] passed through the
      handlers; a handler returns its reply and the store it leaves.  The
      statements of the store always complete: the replies 500 of the
      [catch] blocks around them are not part of the embedding.  The
      store driver refuses a bound number that is not finite; a property
      that needs the write to complete says so with [finite] and
      [bindable].
    - The gateway and the HMAC are parameters of the payment handler, the
      store's comparison of a key with the bound text and its ORDER BY are
      parameters of the handlers that use them.
    - The route [POST /api/razorpay/order] does not touch the store; it
      is embedded apart, with replies of its own ([Order.reply]). *)

From Stdlib Require Import ZArith Bool List Ascii String Lia.
From Stdlib Require Import Floats.SpecFloat.
From Stdlib Require Import Sorting.Permutation.
Import ListNotations.

Local Open Scope string_scope.
Local Open Scope Z_scope.

(* ================================================================== *)
(** ** Characters and strings *)

Module Chars.

Definition code (c : ascii) : N := N_of_ascii c.

Definition in_range (lo hi : N) (c : ascii) : bool :=
  (lo <=? code c)%N && (code c <=? hi)%N.

(** [\d] *)
Definition is_digit : ascii -> bool := in_range 48 57.
(** [A-Z] and [a-z] *)
Definition is_upper : ascii -> bool := in_range 65 90.
Definition is_lower : ascii -> bool := in_range 97 122.
Definition is_letter (c : ascii) : bool := is_upper c || is_lower c.
Definition is_alnum (c : ascii) : bool := is_letter c || is_digit c.

Definition is_char (x : ascii) (c : ascii) : bool := Ascii.eqb x c.

(** White space and line terminators of ECMAScript below code 256:
    TAB, LF, VT, FF, CR, SP and NBSP. *)
Definition is_white (c : ascii) : bool :=
  in_range 9 13 c || (code c =? 32)%N || (code c =? 160)%N.

(** The class [a-zA-Z0-9@._-] of [sanitizeString]. *)
Definition is_safe (c : ascii) : bool :=
  is_alnum c || is_char "@" c || is_char "." c || is_char "_" c
  || is_char "-" c.

(** [String.prototype.toLowerCase] on one code unit below 256: the ASCII
    capitals and the Latin-1 capitals U+00C0..U+00DE except U+00D7. *)
Definition lower_char (c : ascii) : ascii :=
  if is_upper c then ascii_of_N (code c + 32)
  else if in_range 192 222 c && negb (code c =? 215)%N
       then ascii_of_N (code c + 32)
       else c.

End Chars.

Module Str.
Import Chars.

Fixpoint filter (p : ascii -> bool) (s : string) : string :=
  match s with
  | EmptyString => EmptyString
  | String c r => if p c then String c (filter p r) else filter p r
  end.

Fixpoint forallb (p : ascii -> bool) (s : string) : bool :=
  match s with
  | EmptyString => true
  | String c r => p c && forallb p r
  end.

Fixpoint map (f : ascii -> ascii) (s : string) : string :=
  match s with
  | EmptyString => EmptyString
  | String c r => String (f c) (map f r)
  end.

Fixpoint trimStart (s : string) : string :=
  match s with
  | EmptyString => EmptyString
  | String c r => if is_white c then trimStart r else s
  end.

Fixpoint trimEnd (s : string) : string :=
  match s with
  | EmptyString => EmptyString
  | String c r =>
      match trimEnd r with
      | EmptyString => if is_white c then EmptyString else String c EmptyString
      | r' => String c r'
      end
  end.

(** [String.prototype.trim] *)
Definition trim (s : string) : string := trimEnd (trimStart s).

(** [String.prototype.toLowerCase] *)
Definition toLowerCase (s : string) : string := map lower_char s.

(** The longest prefix of [s] whose characters satisfy [p], and the rest. *)
Fixpoint span (p : ascii -> bool) (s : string) : string * string :=
  match s with
  | EmptyString => (EmptyString, EmptyString)
  | String c r =>
      if p c then let (a, b) := span p r in (String c a, b)
      else (EmptyString, s)
  end.

Definition first_white (s : string) : bool :=
  match s with
  | EmptyString => false
  | String c _ => is_white c
  end.

Fixpoint last_white (s : string) : bool :=
  match s with
  | EmptyString => false
  | String c EmptyString => is_white c
  | String _ r => last_white r
  end.

(** [t] is [s] without its leading and trailing white space. *)
Definition trimmed_of (s t : string) : Prop :=
  exists a b, s = a ++ t ++ b
    /\ forallb is_white a = true /\ forallb is_white b = true
    /\ first_white t = false /\ last_white t = false.

(** [s] occurs in [t] as a contiguous substring. *)
Definition contains (t s : string) : Prop :=
  exists pre post, t = pre ++ s ++ post.

Fixpoint repeat (c : ascii) (n : nat) : string :=
  match n with
  | O => EmptyString
  | S k => String c (repeat c k)
  end.

(** [Array.prototype.includes] on an array of strings. *)
Fixpoint includes (l : list string) (s : string) : bool :=
  match l with
  | [] => false
  | x :: r => String.eqb x s || includes r s
  end.

End Str.

(* ================================================================== *)
(** ** Numbers: IEEE 754 binary64 *)

Module Num.
Import Chars.

Definition number : Type := spec_float.

Definition prec : Z := 53.
Definition emax : Z := 1024.

Definition NaN : number := S754_nan.
Definition mul : number -> number -> number := SFmul prec emax.
Definition sub : number -> number -> number := SFsub prec emax.
Definition div : number -> number -> number := SFdiv prec emax.
(** [x < y], [x <= y] and [x > y] of JavaScript: false as soon as one side
    is NaN. *)
Definition ltb : number -> number -> bool := SFltb.
Definition leb : number -> number -> bool := SFleb.
Definition gtb (x y : number) : bool := SFltb y x.
Definition isNaN (x : number) : bool :=
  match x with S754_nan => true | _ => false end.

(** Structural equality; on canonical values it is identity of the
    double (so it separates [+0] from [-0]). *)
Definition same (x y : number) : bool :=
  match x, y with
  | S754_zero a, S754_zero b => Bool.eqb a b
  | S754_infinity a, S754_infinity b => Bool.eqb a b
  | S754_nan, S754_nan => true
  | S754_finite a m e, S754_finite b n f =>
      Bool.eqb a b && Pos.eqb m n && Z.eqb e f
  | _, _ => false
  end.

(** The double nearest to [(-1)^neg * digits * 10^exp10], ties to even. *)
Definition of_decimal (neg : bool) (digits : Z) (exp10 : Z) : number :=
  match digits with
  | Zpos m =>
      if 0 <=? exp10
      then binary_round prec emax neg (m * Z.to_pos (10 ^ exp10)) 0
      else SFdiv prec emax (S754_finite neg m 0)
                           (S754_finite false (Z.to_pos (10 ^ (- exp10))) 0)
  | _ => S754_zero neg
  end.

Definition of_Z (z : Z) : number := of_decimal (z <? 0) (Z.abs z) 0.

(** *** Decimal digits *)

Definition digit_char (d : Z) : ascii := ascii_of_N (48 + Z.to_N d).
Definition digit_val (c : ascii) : Z := Z.of_N (code c) - 48.

Fixpoint digits_fuel (fuel : nat) (n : Z) (acc : string) : string :=
  match fuel with
  | O => acc
  | S k =>
      let acc' := String (digit_char (n mod 10)) acc in
      if n <? 10 then acc' else digits_fuel k (n / 10) acc'
  end.

(** The decimal representation of [n >= 0], without leading zeros. *)
Definition digits (n : Z) : string :=
  digits_fuel (S (Z.to_nat (Z.log2 n))) n EmptyString.

Fixpoint value_acc (s : string) (acc : Z) : Z :=
  match s with
  | EmptyString => acc
  | String c r => value_acc r (10 * acc + digit_val c)
  end.

(** The value of a string of decimal digits. *)
Definition value (s : string) : Z := value_acc s 0.

(** *** Exact value of a finite double, as a fraction *)

Definition numer (m : positive) (e : Z) : Z :=
  if 0 <=? e then Zpos m * 2 ^ e else Zpos m.
Definition denom (e : Z) : Z := if 0 <=? e then 1 else 2 ^ (- e).

(** [floor (vn/vd / 10^q)] *)
Definition floor_scaled (vn vd q : Z) : Z :=
  if 0 <=? q then vn / (vd * 10 ^ q) else (vn * 10 ^ (- q)) / vd.

(** The least [n] from [n] on with [vn/vd < 10^n], searching at most
    [fuel] exponents. *)
Fixpoint decade (fuel : nat) (vn vd n : Z) : Z :=
  match fuel with
  | O => n
  | S k => if floor_scaled vn vd n =? 0 then n else decade k vn vd (n + 1)
  end.

(** A decimal exponent at most two below the one [decade] looks for:
    the binary exponent of [m * 2^e] times [log10 2], rounded down. *)
Definition decade_start (m : positive) (e : Z) : Z :=
  (Z.log2 (Zpos m) + e) * 30103 / 100000 - 2.

(** *** Number::toString (radix 10) *)

(** [compare (vn/vd) (c * 10^q / 2)] *)
Definition cmp_half (vn vd c q : Z) : comparison :=
  if 0 <=? q then (2 * vn ?= c * 10 ^ q * vd)
  else (2 * vn * 10 ^ (- q) ?= c * vd).

(** The shortest digit string [s], of [k] digits or more, and the exponent
    [n] such that [s * 10^(n-k)] reads back as [v]; of two such strings the
    one nearer to [v]. *)
Fixpoint shortest (fuel : nat) (v : number) (vn vd n0 k : Z) : Z * Z :=
  let q := n0 - k in
  let lo := floor_scaled vn vd q in
  let hi := lo + 1 in
  let lo_ok := same (of_decimal false lo q) v in
  let hi_ok := same (of_decimal false hi q) v in
  let pick_hi := if hi =? 10 ^ k then (10 ^ (k - 1), n0 + 1) else (hi, n0) in
  match fuel with
  | O => (lo, n0)
  | S f =>
      match lo_ok, hi_ok with
      | true, false => (lo, n0)
      | false, true => pick_hi
      | true, true =>
          match cmp_half vn vd (lo + hi) q with
          | Lt => (lo, n0)
          | Gt => pick_hi
          | Eq => if Z.even lo then (lo, n0) else pick_hi
          end
      | false, false => shortest f v vn vd n0 (k + 1)
      end
  end.

Definition exponent_part (n : Z) : string :=
  "e" ++ (if 0 <=? n - 1 then "+" else "-") ++ digits (Z.abs (n - 1)).

(** Steps 6 to 10 of Number::toString: lay out the digits [s] for the
    decimal exponent [n]. *)
Definition layout (s : string) (n : Z) : string :=
  let k := Z.of_nat (String.length s) in
  if (k <=? n) && (n <=? 21) then
    s ++ Str.repeat "0" (Z.to_nat (n - k))
  else if (0 <? n) && (n <=? 21) then
    substring 0 (Z.to_nat n) s ++ "." ++
    substring (Z.to_nat n) (Z.to_nat (k - n)) s
  else if (-6 <? n) && (n <=? 0) then
    "0." ++ Str.repeat "0" (Z.to_nat (- n)) ++ s
  else if k =? 1 then s ++ exponent_part n
  else substring 0 1 s ++ "." ++ substring 1 (Z.to_nat (k - 1)) s
       ++ exponent_part n.

Definition toString_pos (m : positive) (e : Z) : string :=
  let vn := numer m e in
  let vd := denom e in
  let n0 := decade 8 vn vd (decade_start m e) in
  let (s, n) := shortest 17 (S754_finite false m e) vn vd n0 1 in
  layout (digits s) n.

(** [Number::toString(x)], which is also [String(x)] and the conversion of
    a number inside a template literal. *)
Definition toString (x : number) : string :=
  match x with
  | S754_nan => "NaN"
  | S754_zero _ => "0"
  | S754_infinity s => if s then "-Infinity" else "Infinity"
  | S754_finite s m e =>
      (if s then "-" else "") ++ toString_pos m e
  end.

(** *** Number.prototype.toFixed *)

(** The digits of the integer [n] with a point before the last [f]. *)
Definition fixed_layout (n : Z) (f : nat) : string :=
  let m := digits n in
  match f with
  | O => m
  | _ =>
      let k := String.length m in
      let m' := if (k <=? f)%nat then Str.repeat "0" (f + 1 - k) ++ m else m in
      let k' := String.length m' in
      substring 0 (k' - f) m' ++ "." ++ substring (k' - f) f m'
  end.

(** [x.toFixed(f)] for [0 <= f <= 100]: NaN and the infinities print as
    [toString] does, so does a magnitude of [10^21] or more; otherwise the
    integer [n] nearest to [|x| * 10^f] (the larger one on a tie) is laid
    out with [f] decimals. *)
Definition toFixed (f : nat) (x : number) : string :=
  match x with
  | S754_finite s m e =>
      let vn := numer m e in
      let vd := denom e in
      (if s then "-" else "") ++
      (if 10 ^ 21 * vd <=? vn then toString_pos m e
       else fixed_layout ((2 * vn * 10 ^ Z.of_nat f + vd) / (2 * vd)) f)
  | S754_zero _ => fixed_layout 0 f
  | _ => toString x
  end.

(** *** parseFloat on a string *)

Definition sign_split (s : string) : bool * string :=
  match s with
  | String "-" r => (true, r)
  | String "+" r => (false, r)
  | _ => (false, s)
  end.

(** The exponent part [e[+-]digits] at the head of [s], 0 when there is
    none. *)
Definition exponent_of (s : string) : Z :=
  match s with
  | String c r =>
      if is_char "e" c || is_char "E" c then
        let (neg, r') := sign_split r in
        let (ds, _) := Str.span is_digit r' in
        match ds with
        | EmptyString => 0
        | _ => if neg then - value ds else value ds
        end
      else 0
  | EmptyString => 0
  end.

(** [parseFloat(s)] for a string [s]: skip leading white space, read the
    longest prefix that is a StrDecimalLiteral, NaN when there is none. *)
Definition parseFloat_string (s : string) : number :=
  let (neg, t) := sign_split (Str.trimStart s) in
  if prefix "Infinity" t then S754_infinity neg
  else
    let (ip, r1) := Str.span is_digit t in
    let (fp, r2) :=
      match r1 with
      | String "." r => Str.span is_digit r
      | _ => (EmptyString, r1)
      end in
    match ip, fp with
    | EmptyString, EmptyString => NaN
    | _, _ =>
        of_decimal neg (value (ip ++ fp))
                   (exponent_of r2 - Z.of_nat (String.length fp))
    end.

End Num.

(* ================================================================== *)
(** ** Regular expressions

    The two patterns of the server are anchored at both ends, so
    [RegExp.prototype.test] decides membership of the whole string in a
    regular language; it is computed with derivatives. *)

Module RegExp.

Inductive t : Type :=
| Void : t
| Eps : t
| Class : (ascii -> bool) -> t
| Seq : t -> t -> t
| Alt : t -> t -> t
| Star : t -> t.

(** [r+] and [r{n}] *)
Definition Plus (r : t) : t := Seq r (Star r).

Fixpoint Times (n : nat) (r : t) : t :=
  match n with
  | O => Eps
  | S k => Seq r (Times k r)
  end.

Fixpoint nullable (r : t) : bool :=
  match r with
  | Void => false
  | Eps => true
  | Class _ => false
  | Seq a b => nullable a && nullable b
  | Alt a b => nullable a || nullable b
  | Star _ => true
  end.

Fixpoint deriv (c : ascii) (r : t) : t :=
  match r with
  | Void => Void
  | Eps => Void
  | Class p => if p c then Eps else Void
  | Seq a b =>
      if nullable a then Alt (Seq (deriv c a) b) (deriv c b)
      else Seq (deriv c a) b
  | Alt a b => Alt (deriv c a) (deriv c b)
  | Star a => Seq (deriv c a) (Star a)
  end.

(** [/^r$/.test(s)] *)
Fixpoint test (r : t) (s : string) : bool :=
  match s with
  | EmptyString => nullable r
  | String c s' => test (deriv c r) s'
  end.

(** The language of a pattern. *)
Inductive lang : t -> string -> Prop :=
| lang_eps : lang Eps EmptyString
| lang_class : forall (p : ascii -> bool) c,
    p c = true -> lang (Class p) (String c EmptyString)
| lang_seq : forall a b u v, lang a u -> lang b v -> lang (Seq a b) (u ++ v)
| lang_alt_l : forall a b u, lang a u -> lang (Alt a b) u
| lang_alt_r : forall a b u, lang b u -> lang (Alt a b) u
| lang_star_nil : forall a, lang (Star a) EmptyString
| lang_star_cons : forall a c u v,
    lang a (String c u) -> lang (Star a) v -> lang (Star a) (String c u ++ v).

End RegExp.

(* ================================================================== *)
(** ** JSON scalars and the JavaScript operations applied to them *)

Module JS.
Import Num.

(** The value of a field of a parsed JSON body: absent, [null], a boolean,
    a number or a string.  Arrays and objects are outside the embedding:
    what the store driver does with one as a bound argument is not fixed by
    the code. *)
Inductive value : Type :=
| Undefined : value
| Null : value
| Boolean : bool -> value
| Number : number -> value
| Str : string -> value.

(** ToBoolean: what [!x] negates. *)
Definition truthy (v : value) : bool :=
  match v with
  | Undefined | Null => false
  | Boolean b => b
  | Number (S754_zero _) | Number S754_nan => false
  | Number _ => true
  | Str EmptyString => false
  | Str _ => true
  end.

Definition falsy (v : value) : bool := negb (truthy v).

(** ToString, the conversion of [parseFloat] and of template literals. *)
Definition ToString (v : value) : string :=
  match v with
  | Undefined => "undefined"
  | Null => "null"
  | Boolean true => "true"
  | Boolean false => "false"
  | Number x => Num.toString x
  | Str s => s
  end.

Definition parseFloat (v : value) : number :=
  Num.parseFloat_string (ToString v).

(** [a === b] *)
Definition strict_eq (a b : value) : bool :=
  match a, b with
  | Undefined, Undefined => true
  | Null, Null => true
  | Boolean x, Boolean y => Bool.eqb x y
  | Number x, Number y => SFeqb x y
  | Str x, Str y => String.eqb x y
  | _, _ => false
  end.

(** [typeof v] *)
Definition typeof (v : value) : string :=
  match v with
  | Undefined => "undefined"
  | Null => "object"
  | Boolean _ => "boolean"
  | Number _ => "number"
  | Str _ => "string"
  end.

(** [v.toLowerCase()] for a truthy [v]: only a string has the method; on a
    number or on [true] the call raises a TypeError ([None]). *)
Definition toLowerCase (v : value) : option string :=
  match v with
  | Str s => Some (Str.toLowerCase s)
  | _ => None
  end.

End JS.

(* ================================================================== *)
(** ** Input sanitization and the two patterns of the payment handler *)

(** [sanitizeString], server.js lines 79-82. *)
Definition sanitizeString (str : JS.value) : string :=
  match str with
  | JS.Str s => Str.filter Chars.is_safe (Str.trim s)
  | _ => EmptyString
  end.

(** [/^\d{10}$/] *)
Definition phoneRegex : RegExp.t :=
  RegExp.Times 10 (RegExp.Class Chars.is_digit).

Definition email_local (c : ascii) : bool :=
  Chars.is_alnum c || Chars.is_char "." c || Chars.is_char "_" c
  || Chars.is_char "-" c.

Definition email_domain (c : ascii) : bool :=
  Chars.is_alnum c || Chars.is_char "." c || Chars.is_char "-" c.

(** [/^[a-zA-Z0-9._-]+@[a-zA-Z0-9.-]+\.[a-zA-Z]{2,}$/] *)
Definition emailRegex : RegExp.t :=
  RegExp.Seq (RegExp.Plus (RegExp.Class email_local))
  (RegExp.Seq (RegExp.Class (Chars.is_char "@"))
  (RegExp.Seq (RegExp.Plus (RegExp.Class email_domain))
  (RegExp.Seq (RegExp.Class (Chars.is_char "."))
  (RegExp.Seq (RegExp.Times 2 (RegExp.Class Chars.is_letter))
              (RegExp.Star (RegExp.Class Chars.is_letter)))))).

Definition validStatuses : list string := ["pending"; "success"; "failed"].

(* ================================================================== *)
(** ** The store: the tables [pricing] and [payments] *)

Module Pricing.
(** A row of the table [pricing]. *)
Record row : Type := mk {
  id : Z;
  basePrice : Num.number;
  discountPercentage : Num.number;
  lastUpdated : Z
}.
End Pricing.

Module Payment.
(** A row of the table [payments]; every column but [id] holds the
    argument the INSERT statement binds to it. *)
Record row : Type := mk {
  id : Z;
  fullName : string;
  phone : string;
  email : string;
  paymentId : string;
  orderId : string;
  amount : JS.value;
  basePrice : Num.number;
  discountPercentage : Num.number;
  status : string;
  date : JS.value
}.

Definition set_status (s : string) (r : row) : row :=
  mk (id r) (fullName r) (phone r) (email r) (paymentId r) (orderId r)
     (amount r) (basePrice r) (discountPercentage r) s (date r).

(** Two rows that agree on every column but [status]. *)
Definition same_but_status (r r' : Payment.row) : Prop :=
  Payment.id r' = Payment.id r
  /\ Payment.fullName r' = Payment.fullName r
  /\ Payment.phone r' = Payment.phone r
  /\ Payment.email r' = Payment.email r
  /\ Payment.paymentId r' = Payment.paymentId r
  /\ Payment.orderId r' = Payment.orderId r
  /\ Payment.amount r' = Payment.amount r
  /\ Payment.basePrice r' = Payment.basePrice r
  /\ Payment.discountPercentage r' = Payment.discountPercentage r
  /\ Payment.date r' = Payment.date r.

End Payment.

(** The two tables, rows in insertion order, each with the counter behind
    its AUTOINCREMENT key (the largest key handed out so far).  A table
    that was never created and an empty table are the same empty list, so
    [CREATE TABLE IF NOT EXISTS] leaves a store as it is. *)
Record store : Type := mkStore {
  payments : list Payment.row;
  payments_seq : Z;
  pricing : list Pricing.row;
  pricing_seq : Z
}.

Definition empty_store : store := mkStore [] 0 [] 0.

Module Sql.

(** [SELECT COUNT( * ) as count FROM pricing] *)
Definition count_pricing (db : store) : Z := Z.of_nat (List.length (pricing db)).

(** [INSERT INTO pricing (basePrice, discountPercentage, lastUpdated)] *)
Definition insert_pricing (b d : Num.number) (t : Z) (db : store) : store :=
  let k := pricing_seq db + 1 in
  mkStore (payments db) (payments_seq db)
          (pricing db ++ [Pricing.mk k b d t])%list k.

(** [SELECT ... FROM pricing LIMIT 1]: the rows of the result. *)
Definition select_pricing_limit_1 (db : store) : list Pricing.row :=
  firstn 1 (pricing db).

(** [UPDATE pricing SET basePrice = ?, discountPercentage = ?,
    lastUpdated = ? WHERE id = 1]: the store left and [rowsAffected]. *)
Definition update_pricing_id_1 (b d : Num.number) (t : Z) (db : store)
  : store * nat :=
  let hit (r : Pricing.row) := Pricing.id r =? 1 in
  (mkStore (payments db) (payments_seq db)
           (map (fun r => if hit r then Pricing.mk (Pricing.id r) b d t else r)
                (pricing db))
           (pricing_seq db),
   List.length (filter hit (pricing db))).

(** [INSERT INTO payments (fullName, ..., date)] *)
Definition insert_payment
  (fullName phone email paymentId orderId : string) (amount : JS.value)
  (basePrice discountPercentage : Num.number) (status : string)
  (date : JS.value) (db : store) : store :=
  let k := payments_seq db + 1 in
  mkStore (payments db ++
             [Payment.mk k fullName phone email paymentId orderId amount
                         basePrice discountPercentage status date])%list
          k (pricing db) (pricing_seq db).

Section UpdateStatus.
(** How the store compares the integer key of a row with the text bound
    to [WHERE id = ?] (the route parameter). *)
Variable key_equals : Z -> string -> bool.

(** [UPDATE payments SET status = ? WHERE id = ?] *)
Definition update_payment_status (s : string) (key : string) (db : store)
  : store * nat :=
  let hit (r : Payment.row) := key_equals (Payment.id r) key in
  (mkStore (map (fun r => if hit r then Payment.set_status s r else r)
                (payments db))
           (payments_seq db) (pricing db) (pricing_seq db),
   List.length (filter hit (payments db))).
End UpdateStatus.

End Sql.

(* ================================================================== *)
(** ** Replies *)

Module Http.

Inductive payload : Type :=
| NoData : payload
| PricingData (basePrice discountPercentage finalPrice : string) : payload
| PaymentRows (rows : list Payment.row) : payload.

(** [res.status(code).json({ success, message, data })] *)
Record response : Type := mk {
  code : nat;
  success : bool;
  message : option string;
  data : payload
}.

(** What a handler does with a request: it sends a response, or an
    exception leaves it before any response is sent. *)
Inductive outcome : Type :=
| Sent : response -> outcome
| Thrown : string -> outcome.

Definition fail (code : nat) (msg : string) : outcome :=
  Sent (mk code false (Some msg) NoData).

Definition ok (msg : string) : outcome :=
  Sent (mk 200 true (Some msg) NoData).

(** The classes of failure of the specification, by status code. *)
Definition ValidationError (o : outcome) : Prop :=
  exists msg, o = fail 400 msg.
Definition NotFoundError (o : outcome) : Prop :=
  exists msg, o = fail 404 msg.
Definition succeeds (o : outcome) : Prop :=
  exists r, o = Sent r /\ success r = true.

End Http.

(* ================================================================== *)
(** ** Startup and the pricing handlers *)

Definition num_0 : Num.number := Eval vm_compute in Num.of_Z 0.
Definition num_1 : Num.number := Eval vm_compute in Num.of_Z 1.
Definition num_100 : Num.number := Eval vm_compute in Num.of_Z 100.
(** The literals [199.00] and [85.0] of the default pricing. *)
Definition num_199 : Num.number :=
  Eval vm_compute in Num.parseFloat_string "199.00".
Definition num_85 : Num.number :=
  Eval vm_compute in Num.parseFloat_string "85.0".

(** [initializeDatabase], server.js lines 29-73, at time [now]. *)
Definition initializeDatabase (now : Z) (db : store) : store :=
  if Sql.count_pricing db =? 0
  then Sql.insert_pricing num_199 num_85 now db
  else db.

(** [basePrice * (1 - discountPercentage / 100)] *)
Definition discounted (basePrice discountPercentage : Num.number)
  : Num.number :=
  Num.mul basePrice (Num.sub num_1 (Num.div discountPercentage num_100)).

(** [GET /api/pricing], server.js lines 85-107. *)
Definition get_pricing (db : store) : Http.outcome * store :=
  match Sql.select_pricing_limit_1 db with
  | [] => (Http.fail 404 "No pricing data found.", db)
  | r :: _ =>
      let basePrice := Pricing.basePrice r in
      let discountPercentage := Pricing.discountPercentage r in
      let finalPrice := Num.toFixed 2 (discounted basePrice discountPercentage) in
      (Http.Sent (Http.mk 200 true None
         (Http.PricingData
            (Num.toFixed 2 (JS.parseFloat (JS.Number basePrice)))
            (Num.toFixed 1 (JS.parseFloat (JS.Number discountPercentage)))
            finalPrice)), db)
  end.

Module PricingBody.
(** The body of [POST /api/pricing]. *)
Record t : Type := mk {
  basePrice : JS.value;
  discountPercentage : JS.value
}.
End PricingBody.

(** [POST /api/pricing], server.js lines 110-153, at time [now]. *)
Definition post_pricing (now : Z) (body : PricingBody.t) (db : store)
  : Http.outcome * store :=
  let basePrice := PricingBody.basePrice body in
  let discountPercentage := PricingBody.discountPercentage body in
  if JS.falsy basePrice || JS.falsy discountPercentage then
    (Http.fail 400 "basePrice and discountPercentage are required.", db)
  else
    let basePriceNum := JS.parseFloat basePrice in
    let discountPercentageNum := JS.parseFloat discountPercentage in
    if Num.isNaN basePriceNum || Num.leb basePriceNum num_0 then
      (Http.fail 400 "basePrice must be a positive number.", db)
    else if Num.isNaN discountPercentageNum
            || Num.ltb discountPercentageNum num_0
            || Num.gtb discountPercentageNum num_100 then
      (Http.fail 400 "discountPercentage must be between 0 and 100.", db)
    else
      let (db', rowsAffected) :=
        Sql.update_pricing_id_1 basePriceNum discountPercentageNum now db in
      if (rowsAffected =? 0)%nat then
        (Http.fail 404 "No pricing record found to update.", db')
      else
        let finalPrice :=
          Num.toFixed 2 (discounted basePriceNum discountPercentageNum) in
        (Http.Sent (Http.mk 200 true (Some "Pricing updated successfully.")
           (Http.PricingData (Num.toFixed 2 basePriceNum)
                             (Num.toFixed 1 discountPercentageNum)
                             finalPrice)), db').

(** The same route in the in-memory variant of the server
    (src/unnamed/part_000, lines 9-49): the pricing is one object. *)
Module InMemory.

Record pricing : Type := mk {
  basePrice : Num.number;
  discountPercentage : Num.number;
  lastUpdated : Z
}.

Definition is_number (v : JS.value) : option Num.number :=
  match v with JS.Number x => Some x | _ => None end.

(** [POST /api/pricing]: the new pricing, or the message of the 400. *)
Definition post_pricing (now : Z) (body : PricingBody.t) (p : pricing)
  : string + pricing :=
  match is_number (PricingBody.basePrice body) with
  | None => inl "basePrice must be a positive number."
  | Some b =>
      if Num.leb b num_0 then inl "basePrice must be a positive number."
      else
        match is_number (PricingBody.discountPercentage body) with
        | None => inl "discountPercentage must be between 0 and 100."
        | Some d =>
            if Num.ltb d num_0 || Num.gtb d num_100
            then inl "discountPercentage must be between 0 and 100."
            else inr (mk b d now)
        end
  end.

(** [GET /api/pricing]: the [finalPrice] of the reply. *)
Definition get_finalPrice (p : pricing) : string :=
  Num.toFixed 2 (discounted (basePrice p) (discountPercentage p)).

End InMemory.

(* ================================================================== *)
(** ** The payment handlers *)

Module PaymentBody.
(** The body of [POST /api/payment]. *)
Record t : Type := mk {
  fullName : JS.value;
  phone : JS.value;
  email : JS.value;
  paymentId : JS.value;
  orderId : JS.value;
  amount : JS.value;
  status : JS.value;
  date : JS.value
}.
End PaymentBody.

Module Gateway.
(** The fields the handler reads of the payment the gateway returns. *)
Record payment : Type := mk {
  order_id : JS.value;
  status : JS.value
}.
End Gateway.

Section PostPayment.

(** [razorpay.payments.fetch]: the payment on record for an id, [None]
    when the call is rejected. *)
Variable payments_fetch : JS.value -> option Gateway.payment.
(** [process.env.RAZORPAY_KEY_SECRET], [None] when it is not set. *)
Variable RAZORPAY_KEY_SECRET : option string.
(** HMAC-SHA256 of a message under a key, in hexadecimal. *)
Variable hmac_sha256_hex : string -> string -> string.

(** [crypto.createHmac('sha256', key).update(msg).digest('hex')]:
    [createHmac] raises a TypeError on an undefined key. *)
Definition generatedSignature (msg : string) : option string :=
  match RAZORPAY_KEY_SECRET with
  | Some key => Some (hmac_sha256_hex key msg)
  | None => None
  end.

(** Lines 231-247: the reply that ends the request when the payment does
    not verify, [None] when the handler goes on to the INSERT. *)
Definition verify (paymentId orderId : JS.value) (lower : string)
  : option Http.outcome :=
  if JS.truthy paymentId && String.eqb lower "success" then
    match payments_fetch paymentId with
    | None => Some (Http.fail 400 "Payment verification failed.")
    | Some payment =>
        if negb (JS.strict_eq (Gateway.order_id payment) orderId)
           || negb (JS.strict_eq (Gateway.status payment) (JS.Str "captured"))
        then Some (Http.fail 400 "Invalid payment or order ID.")
        else
          match generatedSignature
                  (JS.ToString orderId ++ "|" ++ JS.ToString paymentId) with
          | None => Some (Http.fail 400 "Payment verification failed.")
          | Some _ => None
          end
    end
  else None.

(** [POST /api/payment], server.js lines 182-260. *)
Definition post_payment (body : PaymentBody.t) (db : store)
  : Http.outcome * store :=
  let fullName := PaymentBody.fullName body in
  let phone := PaymentBody.phone body in
  let email := PaymentBody.email body in
  let paymentId := PaymentBody.paymentId body in
  let orderId := PaymentBody.orderId body in
  let amount := PaymentBody.amount body in
  let status := PaymentBody.status body in
  let date := PaymentBody.date body in
  if JS.falsy fullName || JS.falsy phone || JS.falsy email
     || JS.falsy amount || JS.falsy status || JS.falsy date
     || JS.falsy orderId then
    (Http.fail 400 "Missing required fields.", db)
  else
    let sanitizedFullName := sanitizeString fullName in
    let sanitizedPhone := sanitizeString phone in
    let sanitizedEmail := sanitizeString email in
    let sanitizedPaymentId :=
      if JS.truthy paymentId then sanitizeString paymentId else "" in
    let sanitizedOrderId := sanitizeString orderId in
    if negb (RegExp.test phoneRegex sanitizedPhone) then
      (Http.fail 400 "Phone number must be 10 digits.", db)
    else if negb (RegExp.test emailRegex sanitizedEmail) then
      (Http.fail 400 "Invalid email format.", db)
    else
      match status, JS.toLowerCase status with
      | JS.Str raw, Some lower =>
          if negb (Str.includes validStatuses lower) then
            (Http.fail 400
               "Invalid status. Must be pending, success, or failed.", db)
          else
            match Sql.select_pricing_limit_1 db with
            | [] => (Http.fail 400 "No pricing data available.", db)
            | r :: _ =>
                let basePrice := Pricing.basePrice r in
                let discountPercentage := Pricing.discountPercentage r in
                let expectedFinalPrice :=
                  Num.toFixed 2 (discounted basePrice discountPercentage) in
                if negb (String.eqb (Num.toFixed 2 (JS.parseFloat amount))
                                    expectedFinalPrice) then
                  (Http.fail 400
                     ("Invalid amount. Expected " ++ expectedFinalPrice
                      ++ ", received " ++ JS.ToString amount ++ "."), db)
                else
                  match verify paymentId orderId lower with
                  | Some reply => (reply, db)
                  | None =>
                      (Http.ok "Payment saved.",
                       Sql.insert_payment
                         sanitizedFullName sanitizedPhone sanitizedEmail
                         sanitizedPaymentId sanitizedOrderId amount
                         basePrice discountPercentage raw date db)
                  end
            end
      | _, _ =>
          (Http.Thrown "TypeError: status.toLowerCase is not a function", db)
      end.

End PostPayment.

Section PatchPayment.

Variable key_equals : Z -> string -> bool.

(** [PATCH /api/payment/:id], server.js lines 263-293; [id] is the route
    parameter and [status] the field of the body. *)
Definition patch_payment (id : string) (status : JS.value) (db : store)
  : Http.outcome * store :=
  if JS.falsy status then
    (Http.fail 400 "Status is required.", db)
  else
    match JS.toLowerCase status with
    | None =>
        (Http.Thrown "TypeError: status.toLowerCase is not a function", db)
    | Some lower =>
        if negb (Str.includes validStatuses lower) then
          (Http.fail 400
             "Invalid status. Must be pending, success, or failed.", db)
        else
          let (db', rowsAffected) :=
            Sql.update_payment_status key_equals lower id db in
          if (rowsAffected =? 0)%nat then
            (Http.fail 404 "Payment record not found.", db')
          else
            (Http.ok "Payment status updated.", db')
    end.

End PatchPayment.

Section ListPayments.

(** [SELECT * FROM payments ORDER BY date DESC]: the order in which the
    store returns the rows of the table. *)
Variable order_by_date_desc : list Payment.row -> list Payment.row.

(** [GET /api/payments], server.js lines 296-304. *)
Definition get_payments (db : store) : Http.outcome * store :=
  (Http.Sent (Http.mk 200 true None
                (Http.PaymentRows (order_by_date_desc (payments db)))), db).

End ListPayments.

(* ================================================================== *)
(** ** The vocabulary of the statements *)

(** What lines 192 and 197-201 decide about the field [phone]. *)
Definition phone_accepted (phone : JS.value) : bool :=
  RegExp.test phoneRegex (sanitizeString phone).

(** The initialization step run once for each of the times [nows]. *)
Definition initialize_each (nows : list Z) (db : store) : store :=
  fold_left (fun d now => initializeDatabase now d) nows db.

(** A status passes the validation of lines 267-276: it is truthy and its
    lower-case form is one of the three words. *)
Definition status_accepted (status : JS.value) (lower : string) : Prop :=
  JS.truthy status = true
  /\ JS.toLowerCase status = Some lower
  /\ Str.includes validStatuses lower = true.

(** Step 1 of the submission: every required field is present. *)
Definition required_present (body : PaymentBody.t) : bool :=
  JS.truthy (PaymentBody.fullName body) && JS.truthy (PaymentBody.phone body)
  && JS.truthy (PaymentBody.email body) && JS.truthy (PaymentBody.amount body)
  && JS.truthy (PaymentBody.status body) && JS.truthy (PaymentBody.date body)
  && JS.truthy (PaymentBody.orderId body).

(** Steps 1 to 3: the request passes the format validations (required
    fields, phone, email and status). *)
Definition format_valid (body : PaymentBody.t) : bool :=
  required_present body
  && RegExp.test phoneRegex (sanitizeString (PaymentBody.phone body))
  && RegExp.test emailRegex (sanitizeString (PaymentBody.email body))
  && match JS.toLowerCase (PaymentBody.status body) with
     | Some lower => Str.includes validStatuses lower
     | None => false
     end.

(** The expected final price of lines 222-223 for a pricing row. *)
Definition expectedFinalPrice (r : Pricing.row) : string :=
  Num.toFixed 2 (discounted (Pricing.basePrice r)
                            (Pricing.discountPercentage r)).

(** The amount check of line 226 passes. *)
Definition amount_matches (body : PaymentBody.t) (r : Pricing.row) : bool :=
  String.eqb (Num.toFixed 2 (JS.parseFloat (PaymentBody.amount body)))
             (expectedFinalPrice r).

(** The four replies of the format validations. *)
Definition format_errors : list string :=
  ["Missing required fields."; "Phone number must be 10 digits.";
   "Invalid email format.";
   "Invalid status. Must be pending, success, or failed."].

(** The gateway does not vouch for the payment: the lookup is rejected, or
    the payment it returns has another order id or is not captured. *)
Definition gateway_refuses
  (payments_fetch : JS.value -> option Gateway.payment)
  (paymentId orderId : JS.value) : Prop :=
  match payments_fetch paymentId with
  | None => True
  | Some p =>
      JS.strict_eq (Gateway.order_id p) orderId = false
      \/ JS.strict_eq (Gateway.status p) (JS.Str "captured") = false
  end.

(** The request reaches the reconciliation of lines 231-247: it has passed
    the format validations and the amount check against the pricing row. *)
Definition reaches_reconciliation (body : PaymentBody.t) (db : store)
  : Prop :=
  format_valid body = true
  /\ exists r rest, pricing db = r :: rest /\ amount_matches body r = true.

(** The range checks of lines 121-126 on the two parsed numbers. *)
Definition pricing_in_range (b d : Num.number) : bool :=
  negb (Num.isNaN b || Num.leb b num_0)
  && negb (Num.isNaN d || Num.ltb d num_0 || Num.gtb d num_100).

(** *** Examples: a store after startup, requests and gateways *)

(** The store compares a key with the text of its decimal digits. *)
Definition decimal_key (k : Z) (text : string) : bool :=
  String.eqb (Num.digits k) text.

(** A store after startup and a well-formed request, for the examples. *)
Definition store_0 : store := initializeDatabase 0 empty_store.

Definition request (paymentId : JS.value) (amount status : string)
  : PaymentBody.t :=
  PaymentBody.mk (JS.Str "Asha Rao") (JS.Str "9876543210")
                 (JS.Str "asha@example.com") paymentId (JS.Str "order_1")
                 (JS.Str amount) (JS.Str status) (JS.Str "1700000000000").

Definition gateway_other_order (_ : JS.value) : option Gateway.payment :=
  Some (Gateway.mk (JS.Str "order_2") (JS.Str "captured")).

Definition gateway_captured (_ : JS.value) : option Gateway.payment :=
  Some (Gateway.mk (JS.Str "order_1") (JS.Str "captured")).

Definition no_hmac (key msg : string) : string := "".

(* ================================================================== *)
(** ** The order route *)

Module Int.
Import Chars.






End Int.



Module Order.

(** The argument of [razorpay.orders.create]; the server does not set
    [payment_capture]. *)
Record options : Type := mk {
  amount : Num.number;
  currency : JS.value;
  receipt : string;
  payment_capture : option Z
}.

(** The replies of [POST /api/razorpay/order]. *)
Inductive reply : Type :=
| Created (orderId : JS.value) : reply
| Rejected (code : nat) (message : string) : reply
| Failed (code : nat) (message error : string) : reply.

End Order.

Section PostOrder.

(** [razorpay.orders.create]: the id of the order created, or the message
    of the error the call is rejected with. *)
Variable orders_create : Order.options -> string + JS.value.


End PostOrder.

(* ================================================================== *)
(** ** The server as a whole *)

Module Api.

(** What the server depends on while it serves one request: the answers
    of the gateway, the key of the environment, and the store's ways of
    comparing a key and of ordering a result. *)
Record world : Type := mkWorld {
  payments_fetch : JS.value -> option Gateway.payment;
  key_secret : option string;
  hmac_sha256_hex : string -> string -> string;
  key_equals : Z -> string -> bool;
  order_by_date_desc : list Payment.row -> list Payment.row
}.

(** The requests that read or write the store. *)
Inductive request : Type :=
| GetPricing : request
| PostPricing (now : Z) (body : PricingBody.t) : request
| PostPayment (body : PaymentBody.t) : request
| PatchPayment (id : string) (status : JS.value) : request
| GetPayments : request.

(** The handler of a request. *)
Definition serve (w : world) (q : request) (db : store)
  : Http.outcome * store :=
  match q with
  | GetPricing => get_pricing db
  | PostPricing now body => post_pricing now body db
  | PostPayment body =>
      post_payment (payments_fetch w) (key_secret w) (hmac_sha256_hex w)
                   body db
  | PatchPayment id status => patch_payment (key_equals w) id status db
  | GetPayments => get_payments (order_by_date_desc w) db
  end.

(** What happens to the store: the process starts (again), or a request
    is served in some world. *)
Inductive event : Type :=
| Start (now : Z) : event
| Serve (w : world) (q : request) : event.

Definition apply (db : store) (e : event) : store :=
  match e with
  | Start now => initializeDatabase now db
  | Serve w q => snd (serve w q db)
  end.

(** The store after a first start on an empty store at time [t0] and the
    events of [history], oldest first. *)
Definition after (t0 : Z) (history : list event) : store :=
  fold_left apply history (initializeDatabase t0 empty_store).

End Api.

(** *** Invariants of the store *)

(** The keys of the payments are 1, 2, ... in the order of insertion, and
    the counter is the last of them. *)
Definition keys_in_sequence (db : store) : Prop :=
  map Payment.id (payments db)
    = map Z.of_nat (seq 1 (List.length (payments db)))
  /\ payments_seq db = Z.of_nat (List.length (payments db)).

(** The pricing table is one row, of key 1, whose values pass the range
    checks of [POST /api/pricing]. *)
Definition pricing_singleton (db : store) : Prop :=
  exists b d t,
    pricing db = [Pricing.mk 1 b d t]
    /\ pricing_seq db = 1
    /\ pricing_in_range b d = true.

(** The identity columns of a payment row are as the validations of the
    submission leave them. *)
Definition identity_clean (r : Payment.row) : Prop :=
  RegExp.test phoneRegex (Payment.phone r) = true
  /\ RegExp.test emailRegex (Payment.email r) = true
  /\ Str.forallb Chars.is_safe (Payment.fullName r) = true
  /\ Str.forallb Chars.is_safe (Payment.paymentId r) = true
  /\ Str.forallb Chars.is_safe (Payment.orderId r) = true.

(** The status of a payment row is one of the three words up to letter
    case. *)
Definition status_known (r : Payment.row) : Prop :=
  Str.includes validStatuses (Str.toLowerCase (Payment.status r)) = true.

(** The amount of a payment row, with two decimals, is the final price of
    the pricing the row carries. *)
Definition amount_at_snapshot (r : Payment.row) : Prop :=
  Num.toFixed 2 (JS.parseFloat (Payment.amount r))
  = Num.toFixed 2 (discounted (Payment.basePrice r)
                              (Payment.discountPercentage r)).


(** *** Further examples *)

Definition gateway_down (_ : JS.value) : option Gateway.payment := None.

Definition world_0 : Api.world :=
  Api.mkWorld gateway_captured (Some "k") no_hmac decimal_key (fun l => l).


Definition orders_down (o : Order.options) : string + JS.value :=
  inl "unreachable".


(* ================================================================== *)
(** ** The sanitizer in the words of its description *)

Module Described.

(** The class [A-Za-z0-9@._-], character by character. *)
Definition class_chars : string :=
  "ABCDEFGHIJKLMNOPQRSTUVWXYZabcdefghijklmnopqrstuvwxyz0123456789@._-".

Fixpoint occurs (c : ascii) (s : string) : bool :=
  match s with
  | EmptyString => false
  | String d r => Ascii.eqb c d || occurs c r
  end.

(** How often [c] occurs in [s]. *)
Fixpoint count (c : ascii) (s : string) : nat :=
  match s with
  | EmptyString => O
  | String d r => if Ascii.eqb c d then S (count c r) else count c r
  end.

(** [t] is [s] with every character outside the class removed: the
    characters of the class are kept, each one, in their order. *)
Inductive outside_removed : string -> string -> Prop :=
| removed_nil : outside_removed EmptyString EmptyString
| removed_keep : forall c s t,
    occurs c class_chars = true ->
    outside_removed s t -> outside_removed (String c s) (String c t)
| removed_drop : forall c s t,
    occurs c class_chars = false ->
    outside_removed s t -> outside_removed (String c s) t.

End Described.

(* ================================================================== *)
(** ** What surrounds the handlers: the store driver and Express *)

(** A number the store driver takes as an argument: it refuses NaN and
    the infinities, and the statement is then answered by the [catch]
    block of the handler. *)
Definition finite (x : Num.number) : bool :=
  match x with
  | S754_zero _ | S754_finite _ _ _ => true
  | S754_infinity _ | S754_nan => false
  end.

(** A field the store driver takes as an argument. *)
Definition bindable (v : JS.value) : bool :=
  match v with
  | JS.Undefined => false
  | JS.Number x => finite x
  | _ => true
  end.

Module Express.

(** The error-handling middleware, server.js lines 307-310. *)
Definition error_middleware (err : string) : Http.response :=
  Http.mk 500 false (Some "Internal server error.") Http.NoData.

(** What the client receives for the outcome of a handler.  When an
    exception has left an async handler, Express passes it to the error
    middleware if it forwards rejected handlers (as version 5 does), and
    otherwise (version 4) nothing is sent. *)
Definition respond (forwards : bool) (o : Http.outcome)
  : option Http.response :=
  match o with
  | Http.Sent r => Some r
  | Http.Thrown e => if forwards then Some (error_middleware e) else None
  end.

End Express.

(** The amount of a payment row that was sent as text is at the final
    price of the pricing the row carries. *)
Definition text_amount_at_snapshot (r : Payment.row) : Prop :=
  match Payment.amount r with
  | JS.Str _ => amount_at_snapshot r
  | _ => True
  end.

(* ================================================================== *)
(** * Properties *)

(** ** The number model on known values *)

Module NumChecks.
Import Num.

(** [String(x)] on values whose JavaScript text is well known. *)
Example toString_known :
  List.map (fun s => toString (parseFloat_string s))
           ["0.1"; "1e21"; "123456789012345680000"; "5e-324";
            "1.7976931348623157e308"; "0.000001"; "1e-7"; "-0";
            "9007199254740993"; "1e999"; "abc"]
  = ["0.1"; "1e+21"; "123456789012345680000"; "5e-324";
     "1.7976931348623157e+308"; "0.000001"; "1e-7"; "0";
     "9007199254740992"; "Infinity"; "NaN"].
Proof. vm_compute. reflexivity. Qed.

(** [parseFloat] reads the longest numeric prefix after the white space. *)
Example parseFloat_known :
  List.map (fun s => toString (parseFloat_string s))
           ["  12abc"; ".5"; "5."; "."; "-.5e1"; "1e"; "1e+"; "Infinityx";
            "0x10"; "+29.85"]
  = ["12"; "0.5"; "5"; "NaN"; "-5"; "1"; "1"; "Infinity"; "0"; "29.85"].
Proof. vm_compute. reflexivity. Qed.

(** [toFixed] rounds the exact binary value, half away from zero. *)
Example toFixed_known :
  List.map (fun s => toFixed 2 (parseFloat_string s))
           ["29.85"; "30"; "1.005"; "10.235"; "0.015"; "-0.001"; "-0";
            "abc"; "1e21"; "1e20"; "999.995"]
  = ["29.85"; "30.00"; "1.00"; "10.23"; "0.01"; "-0.00"; "0.00";
     "NaN"; "1e+21"; "100000000000000000000.00"; "1000.00"]
  /\ List.map (fun s => toFixed 0 (parseFloat_string s)) ["0.5"; "2.5"; "-2.5"]
     = ["1"; "3"; "-3"]
  /\ List.map (fun s => toFixed 1 (parseFloat_string s)) ["85"; "1.45"; "0.25"]
     = ["85.0"; "1.4"; "0.3"].
Proof. vm_compute. repeat split. Qed.

(** The default pricing: 199 less 85 percent is 29.850000000000005, shown
    as 29.85. *)
Example default_final_price :
  toString (discounted num_199 num_85) = "29.850000000000005"
  /\ toFixed 2 (discounted num_199 num_85) = "29.85".
Proof. vm_compute. split; reflexivity. Qed.

End NumChecks.

(** ** Strings *)

Section StringFacts.
Import Chars.

Lemma append_assoc (a b c : string) : (a ++ b) ++ c = a ++ (b ++ c).
Proof. induction a as [|x a IH]; simpl; [reflexivity | now rewrite IH]. Qed.

Lemma contains_middle (pre s post : string) :
  Str.contains (pre ++ s ++ post) s.
Proof. exists pre, post. reflexivity. Qed.

Variable p : ascii -> bool.

Lemma filter_idem (s : string) : Str.filter p (Str.filter p s) = Str.filter p s.
Proof.
  induction s as [|c s IH]; simpl; [reflexivity|].
  destruct (p c) eqn:E; simpl; [rewrite E, IH; reflexivity | exact IH].
Qed.

Lemma filter_all (s : string) : Str.forallb p (Str.filter p s) = true.
Proof.
  induction s as [|c s IH]; simpl; [reflexivity|].
  destruct (p c) eqn:E; simpl; [rewrite E; exact IH | exact IH].
Qed.

(** [p] keeps no white space, as every class used by the server. *)
Hypothesis p_not_white : forall c, is_white c = true -> p c = false.

Lemma filter_trimStart (s : string) :
  Str.filter p (Str.trimStart s) = Str.filter p s.
Proof.
  induction s as [|c s IH]; simpl; [reflexivity|].
  destruct (is_white c) eqn:W; [|reflexivity].
  now rewrite (p_not_white c W).
Qed.

Lemma filter_trimEnd (s : string) :
  Str.filter p (Str.trimEnd s) = Str.filter p s.
Proof.
  induction s as [|c s IH]; simpl; [reflexivity|].
  destruct (Str.trimEnd s) as [|d t] eqn:T.
  - simpl in IH. rewrite <- IH.
    destruct (is_white c) eqn:W; simpl.
    + now rewrite (p_not_white c W).
    + reflexivity.
  - change (Str.filter p (String c (String d t)))
      with (if p c then String c (Str.filter p (String d t))
            else Str.filter p (String d t)).
    now rewrite IH.
Qed.

Lemma filter_trim (s : string) : Str.filter p (Str.trim s) = Str.filter p s.
Proof. unfold Str.trim. now rewrite filter_trimEnd, filter_trimStart. Qed.

End StringFacts.

Lemma safe_not_white (c : ascii) :
  Chars.is_white c = true -> Chars.is_safe c = false.
Proof.
  destruct c as [[] [] [] [] [] [] [] []]; vm_compute; congruence.
Qed.

(** [sanitizeString] keeps, in order, exactly the characters of the class:
    the trimming is subsumed by the replacement. *)
Lemma sanitizeString_filter (s : string) :
  sanitizeString (JS.Str s) = Str.filter Chars.is_safe s.
Proof. simpl. apply filter_trim. exact safe_not_white. Qed.

(** ** Regular expressions: [test] decides the language *)

Module RegExpFacts.
Import RegExp.

Lemma append_cons_inv (u v : string) c s :
  u ++ v = String c s ->
  (u = "" /\ v = String c s) \/ (exists u', u = String c u' /\ s = u' ++ v).
Proof.
  destruct u as [|d u]; simpl; intros H.
  - left. split; [reflexivity | exact H].
  - right. inversion H; subst. exists u. split; reflexivity.
Qed.

Lemma lang_seq_inv (a b : t) w :
  lang (Seq a b) w -> exists u v, w = u ++ v /\ lang a u /\ lang b v.
Proof. intros H. inversion H; subst. eauto. Qed.

Lemma lang_alt_inv (a b : t) w : lang (Alt a b) w -> lang a w \/ lang b w.
Proof. intros H. inversion H; subst; auto. Qed.

Lemma lang_class_inv (q : ascii -> bool) w :
  lang (Class q) w -> exists c, w = String c "" /\ q c = true.
Proof. intros H. inversion H; subst. eauto. Qed.

Lemma lang_eps_inv w : lang Eps w -> w = "".
Proof. intros H. now inversion H. Qed.

Lemma lang_void_inv w : ~ lang Void w.
Proof. intros H. inversion H. Qed.

Lemma lang_star_inv (a : t) w :
  lang (Star a) w ->
  w = "" \/ exists c u v,
    w = String c (u ++ v) /\ lang a (String c u) /\ lang (Star a) v.
Proof.
  intros H. inversion H as [| | | | | |a' c u v Hu Hv]; subst; [now left|].
  right. exists c, u, v. now repeat split.
Qed.

Lemma nullable_lang (r : t) : nullable r = true <-> lang r "".
Proof.
  induction r as [| |q|a IHa b IHb|a IHa b IHb|a IHa]; simpl.
  - split; [discriminate | intros H; now apply lang_void_inv in H].
  - split; [intros _; constructor | reflexivity].
  - split; [discriminate|].
    intros H. apply lang_class_inv in H. destruct H as [c [E _]]. discriminate.
  - rewrite andb_true_iff, IHa, IHb. split.
    + intros [Ha Hb]. change "" with ("" ++ ""). now constructor.
    + intros H. apply lang_seq_inv in H. destruct H as [u [v [E [Hu Hv]]]].
      destruct u; [|discriminate]. simpl in E. subst v. now split.
  - rewrite orb_true_iff, IHa, IHb. split.
    + intros [H|H]; [now apply lang_alt_l | now apply lang_alt_r].
    + apply lang_alt_inv.
  - split; [intros _; constructor | reflexivity].
Qed.

Lemma lang_seq_cons (a b : t) c s :
  lang (Seq a b) (String c s) <->
  (exists u v, s = u ++ v /\ lang a (String c u) /\ lang b v)
  \/ (lang a "" /\ lang b (String c s)).
Proof.
  split.
  - intros H. apply lang_seq_inv in H. destruct H as [u [v [E [Hu Hv]]]].
    symmetry in E.
    destruct (append_cons_inv _ _ _ _ E) as [[-> ->]|[u' [-> ->]]].
    + right. now split.
    + left. exists u', v. now repeat split.
  - intros [[u [v [-> [Hu Hv]]]]|[Ha Hb]].
    + change (String c (u ++ v)) with (String c u ++ v). now constructor.
    + change (String c s) with ("" ++ String c s). now constructor.
Qed.

Lemma lang_star_cons_inv (a : t) c s :
  lang (Star a) (String c s) <->
  exists u v, s = u ++ v /\ lang a (String c u) /\ lang (Star a) v.
Proof.
  split.
  - intros H. apply lang_star_inv in H.
    destruct H as [E|[d [u [v [E [Hu Hv]]]]]]; [discriminate|].
    inversion E; subst. exists u, v. now repeat split.
  - intros [u [v [-> [Hu Hv]]]].
    change (String c (u ++ v)) with (String c u ++ v). now constructor.
Qed.

Lemma deriv_lang (r : t) : forall c s,
  lang (deriv c r) s <-> lang r (String c s).
Proof.
  induction r as [| |q|a IHa b IHb|a IHa b IHb|a IHa]; intros c s; simpl.
  - split; intros H; now apply lang_void_inv in H.
  - split; intros H; [now apply lang_void_inv in H|].
    apply lang_eps_inv in H. discriminate.
  - destruct (q c) eqn:Q; split; intros H.
    + apply lang_eps_inv in H. subst s. now constructor.
    + apply lang_class_inv in H. destruct H as [d [E _]].
      inversion E; subst. constructor.
    + now apply lang_void_inv in H.
    + apply lang_class_inv in H. destruct H as [d [E Qd]].
      inversion E; subst. congruence.
  - rewrite lang_seq_cons. destruct (nullable a) eqn:N.
    + split.
      * intros H. apply lang_alt_inv in H. destruct H as [H|H].
        -- left. apply lang_seq_inv in H. destruct H as [u [v [E [Hu Hv]]]].
           exists u, v. rewrite <- IHa. now repeat split.
        -- right. split; [now apply nullable_lang | now apply IHb].
      * intros [[u [v [-> [Hu Hv]]]]|[Ha Hb]].
        -- apply lang_alt_l. constructor; [now apply IHa | exact Hv].
        -- apply lang_alt_r. now apply IHb.
    + split.
      * intros H. left. apply lang_seq_inv in H.
        destruct H as [u [v [E [Hu Hv]]]].
        exists u, v. rewrite <- IHa. now repeat split.
      * intros [[u [v [-> [Hu Hv]]]]|[Ha Hb]].
        -- constructor; [now apply IHa | exact Hv].
        -- apply nullable_lang in Ha. congruence.
  - split; intros H.
    + apply lang_alt_inv in H. destruct H as [H|H];
        [apply lang_alt_l; now apply IHa | apply lang_alt_r; now apply IHb].
    + apply lang_alt_inv in H. destruct H as [H|H];
        [apply lang_alt_l; now apply IHa | apply lang_alt_r; now apply IHb].
  - rewrite lang_star_cons_inv. split.
    + intros H. apply lang_seq_inv in H. destruct H as [u [v [E [Hu Hv]]]].
      exists u, v. rewrite <- IHa. now repeat split.
    + intros [u [v [-> [Hu Hv]]]]. constructor; [now apply IHa | exact Hv].
Qed.

Theorem test_lang (s : string) : forall r, test r s = true <-> lang r s.
Proof.
  induction s as [|c s IH]; intros r; simpl.
  - apply nullable_lang.
  - rewrite IH. apply deriv_lang.
Qed.

(** The language of [{n}] over one class: the strings of [n] characters of
    the class. *)
Lemma lang_times_class (q : ascii -> bool) (n : nat) : forall s,
  lang (Times n (Class q)) s <->
  String.length s = n /\ Str.forallb q s = true.
Proof.
  induction n as [|n IH]; intros s; simpl.
  - split.
    + intros H. apply lang_eps_inv in H. subst s. now split.
    + intros [L _]. destruct s; [constructor | discriminate].
  - split.
    + intros H. apply lang_seq_inv in H. destruct H as [u [v [E [Hu Hv]]]].
      apply lang_class_inv in Hu. destruct Hu as [c [-> Qc]].
      apply IH in Hv. destruct Hv as [L F]. subst s.
      simpl. now rewrite L, F, Qc.
    + intros [L F]. destruct s as [|c s]; [discriminate|].
      simpl in *. apply andb_true_iff in F. destruct F as [Qc F].
      change (String c s) with (String c "" ++ s). constructor.
      * now constructor.
      * apply IH. split; [congruence | exact F].
Qed.

End RegExpFacts.

(** ** [trim] removes the white space at both ends and nothing else *)

Section TrimFacts.
Import Chars.

Lemma trimStart_split (s : string) :
  exists a, s = a ++ Str.trimStart s
    /\ Str.forallb is_white a = true
    /\ Str.first_white (Str.trimStart s) = false.
Proof.
  induction s as [|c s [a [E [A F]]]]; simpl.
  - exists "". now repeat split.
  - destruct (is_white c) eqn:W.
    + exists (String c a). simpl. rewrite W, A, <- E. now repeat split.
    + exists "". simpl. now repeat split.
Qed.

Lemma trimEnd_split (t : string) :
  exists b, t = Str.trimEnd t ++ b
    /\ Str.forallb is_white b = true
    /\ Str.last_white (Str.trimEnd t) = false.
Proof.
  induction t as [|c t [b [E [B L]]]]; simpl.
  - exists "". now repeat split.
  - destruct (Str.trimEnd t) as [|d t'] eqn:T.
    + simpl in E. destruct (is_white c) eqn:W.
      * exists (String c b). subst t. simpl. rewrite W, B. now repeat split.
      * exists b. subst t. simpl. rewrite W. now repeat split.
    + exists b. split; [|split; [exact B | exact L]].
      simpl. simpl in E. now rewrite <- E.
Qed.

Lemma trimEnd_first (t : string) :
  Str.first_white t = false -> Str.first_white (Str.trimEnd t) = false.
Proof.
  destruct t as [|c t]; simpl; [reflexivity|]. intros W.
  destruct (Str.trimEnd t); [rewrite W|]; simpl; exact W.
Qed.

Lemma trim_trimmed (s : string) : Str.trimmed_of s (Str.trim s).
Proof.
  unfold Str.trim.
  destruct (trimStart_split s) as [a [Ea [A F]]].
  destruct (trimEnd_split (Str.trimStart s)) as [b [Eb [B L]]].
  exists a, b. repeat split; try assumption.
  - rewrite <- Eb. exact Ea.
  - now apply trimEnd_first.
Qed.

End TrimFacts.

(** ** The sanitizer *)

Lemma safe_is_class (c : ascii) :
  Chars.is_safe c = Described.occurs c Described.class_chars.
Proof. destruct c as [[] [] [] [] [] [] [] []]; vm_compute; reflexivity. Qed.

Lemma filter_outside_removed (s : string) :
  Described.outside_removed s (Str.filter Chars.is_safe s).
Proof.
  induction s as [|c s IH]; simpl; [constructor|].
  destruct (Chars.is_safe c) eqn:E; rewrite safe_is_class in E.
  - now apply Described.removed_keep.
  - now apply Described.removed_drop.
Qed.

Lemma filter_count (c : ascii) (s : string) :
  Described.count c (Str.filter Chars.is_safe s)
  = if Chars.is_safe c then Described.count c s else O.
Proof.
  induction s as [|d s IH]; simpl; [now destruct (Chars.is_safe c)|].
  destruct (Ascii.eqb c d) eqn:E.
  - apply Ascii.eqb_eq in E. subst d.
    destruct (Chars.is_safe c) eqn:Sc; simpl.
    + rewrite Ascii.eqb_refl. f_equal. exact IH.
    + exact IH.
  - destruct (Chars.is_safe d); simpl; [rewrite E|]; exact IH.
Qed.

(** C10.  [sanitizeString] is a function of its argument alone.  On a value
    that is not a string it returns the empty string; on a string [s] it
    returns the characters of the class [a-zA-Z0-9@._-] of [s] with its
    leading and trailing white space removed, in their order: every
    character of the class is kept, as often as it occurs, and every
    other character is removed.  Every character of the result is in the
    class, and sanitizing the result again returns it unchanged. *)
Theorem sanitizeString_idempotent (v : JS.value) :
  (sanitizeString v =
     if String.eqb (JS.typeof v) "string"
     then Str.filter Chars.is_safe (Str.trim (JS.ToString v))
     else "")
  /\ Str.trimmed_of (JS.ToString v) (Str.trim (JS.ToString v))
  /\ Str.forallb Chars.is_safe (sanitizeString v) = true
  /\ sanitizeString (JS.Str (sanitizeString v)) = sanitizeString v
  /\ match v with
     | JS.Str s =>
         exists t, Str.trimmed_of s t
                   /\ Described.outside_removed t (sanitizeString v)
     | _ => sanitizeString v = ""
     end
  /\ (forall c,
        Described.count c (sanitizeString v)
        = match v with
          | JS.Str s =>
              if Described.occurs c Described.class_chars
              then Described.count c s else O
          | _ => O
          end)
  /\ (forall c,
        Chars.is_safe c = Described.occurs c Described.class_chars).
Proof.
  split; [destruct v; reflexivity|].
  split; [apply trim_trimmed|].
  split; [destruct v; try reflexivity; apply filter_all|].
  split.
  { rewrite sanitizeString_filter.
    destruct v; try reflexivity.
    rewrite sanitizeString_filter. apply filter_idem. }
  split.
  { destruct v as [| | | |s]; try reflexivity.
    exists (Str.trim s). split; [apply trim_trimmed|].
    apply filter_outside_removed. }
  split; [|exact safe_is_class].
  intros c. destruct v as [| | | |s]; try reflexivity.
  rewrite sanitizeString_filter, filter_count. now rewrite safe_is_class.
Qed.

(** ** The phone check *)

Lemma phone_accepted_iff (phone : JS.value) :
  phone_accepted phone = true <->
  String.length (sanitizeString phone) = 10%nat
  /\ Str.forallb Chars.is_digit (sanitizeString phone) = true.
Proof.
  unfold phone_accepted, phoneRegex.
  rewrite RegExpFacts.test_lang. apply RegExpFacts.lang_times_class.
Qed.

(** C7, as the code has it.  The phone check accepts a value exactly when
    its sanitized form is ten decimal digits: ["12345"] is rejected,
    ["1234567890"] and every input that sanitizes to it pass, such as
    ["(123) 456 7890"].  The hyphen is in the class the sanitizer keeps, so
    ["123-456-7890"] sanitizes to itself and is rejected. *)
Theorem phone_check_ten_digits :
  (forall phone,
      phone_accepted phone = true <->
      String.length (sanitizeString phone) = 10%nat
      /\ Str.forallb Chars.is_digit (sanitizeString phone) = true)
  /\ phone_accepted (JS.Str "12345") = false
  /\ phone_accepted (JS.Str "1234567890") = true
  /\ (forall phone,
         sanitizeString phone = "1234567890" -> phone_accepted phone = true)
  /\ sanitizeString (JS.Str "(123) 456 7890") = "1234567890"
  /\ sanitizeString (JS.Str "123-456-7890") = "123-456-7890"
  /\ phone_accepted (JS.Str "123-456-7890") = false.
Proof.
  split; [exact phone_accepted_iff|].
  repeat split; try reflexivity.
  intros phone E. unfold phone_accepted. now rewrite E.
Qed.

Lemma phone_check_ten_digits_witness :
  sanitizeString (JS.Str " 123 456 7890 ") = "1234567890"
  /\ phone_accepted (JS.Str " 123 456 7890 ") = true.
Proof.
  split; [reflexivity|].
  apply (proj1 (proj2 (proj2 (proj2 phone_check_ten_digits)))).
  reflexivity.
Defined.

(** C7, as the specification words it: ["123-456-7890"] is said to
    sanitize to ["1234567890"] and to pass.  It does neither. *)
Lemma phone_hyphens_rejected :
  sanitizeString (JS.Str "123-456-7890") <> "1234567890"
  /\ phone_accepted (JS.Str "123-456-7890") <> true.
Proof. split; vm_compute; discriminate. Qed.

(** ** Startup seeding *)

Lemma initializeDatabase_seeded (now : Z) (db : store) :
  pricing db <> [] -> initializeDatabase now db = db.
Proof.
  unfold initializeDatabase, Sql.count_pricing. intros H.
  destruct (pricing db); [congruence | reflexivity].
Qed.

Lemma initialize_each_seeded (nows : list Z) : forall db,
  pricing db <> [] -> initialize_each nows db = db.
Proof.
  induction nows as [|now nows IH]; intros db H; simpl; [reflexivity|].
  rewrite (initializeDatabase_seeded now db H). now apply IH.
Qed.

Lemma initializeDatabase_empty (now : Z) (db : store) :
  pricing db = [] ->
  initializeDatabase now db =
  mkStore (payments db) (payments_seq db)
          [Pricing.mk (pricing_seq db + 1) num_199 num_85 now]
          (pricing_seq db + 1).
Proof.
  unfold initializeDatabase, Sql.count_pricing, Sql.insert_pricing.
  intros H. now rewrite H.
Qed.

(** C5.  Run any number of times on a store with a pricing row, the
    initialization step leaves the store as it is.  Run one or more times
    on a store without one, it inserts one row, with base price 199.00 and
    discount 85.0, at the first run and nothing afterwards; the payments
    are not touched. *)
Theorem seeding_idempotent (now : Z) (nows : list Z) (db : store) :
  (pricing db <> [] -> initialize_each (now :: nows) db = db)
  /\ (pricing db = [] ->
      pricing (initialize_each (now :: nows) db) =
        [Pricing.mk (pricing_seq db + 1) num_199 num_85 now]
      /\ payments (initialize_each (now :: nows) db) = payments db
      /\ initialize_each (now :: nows) db = initializeDatabase now db)
  /\ num_199 = Num.of_Z 199 /\ num_85 = Num.of_Z 85
  /\ Num.toFixed 2 num_199 = "199.00" /\ Num.toFixed 1 num_85 = "85.0".
Proof.
  split; [apply initialize_each_seeded|].
  split; [|now vm_compute].
  intros H. simpl.
  rewrite (initialize_each_seeded nows (initializeDatabase now db)).
  - rewrite (initializeDatabase_empty now db H). now repeat split.
  - rewrite (initializeDatabase_empty now db H). discriminate.
Qed.

Lemma seeding_idempotent_witness :
  pricing (initialize_each [10; 20; 30] empty_store) =
    [Pricing.mk 1 num_199 num_85 10]
  /\ initialize_each [40; 50] (initializeDatabase 10 empty_store) =
     initializeDatabase 10 empty_store.
Proof.
  split.
  - apply (proj1 (proj2 (seeding_idempotent 10 [20; 30] empty_store))).
    reflexivity.
  - apply (proj1 (seeding_idempotent 40 [50]
                    (initializeDatabase 10 empty_store))).
    vm_compute. discriminate.
Defined.

(** ** Status updates *)

Module PaymentFacts.

Lemma same_but_status_refl (r : Payment.row) :
  Payment.same_but_status r r.
Proof. now repeat split. Qed.

Lemma set_status_same (s : string) (r : Payment.row) :
  Payment.same_but_status r (Payment.set_status s r)
  /\ Payment.status (Payment.set_status s r) = s.
Proof. now repeat split. Qed.

Lemma no_hit_count (hit : Payment.row -> bool) (l : list Payment.row) :
  List.length (filter hit l) = 0%nat <-> forall r, In r l -> hit r = false.
Proof.
  induction l as [|x l IH]; simpl.
  - split; [intros _ r [] | reflexivity].
  - destruct (hit x) eqn:Hx; simpl.
    + split; [discriminate|]. intros H. specialize (H x (or_introl eq_refl)).
      congruence.
    + rewrite IH. split.
      * intros H r [<-|Hr]; [exact Hx | now apply H].
      * intros H r Hr. apply H. now right.
Qed.

Lemma no_hit_map (hit : Payment.row -> bool) (f : Payment.row -> Payment.row)
  (l : list Payment.row) :
  (forall r, In r l -> hit r = false) ->
  map (fun r => if hit r then f r else r) l = l.
Proof.
  induction l as [|x l IH]; simpl; intros H; [reflexivity|].
  rewrite (H x (or_introl eq_refl)). f_equal. apply IH.
  intros r Hr. apply H. now right.
Qed.

Lemma update_rows (hit : Payment.row -> bool) (s : string)
  (l : list Payment.row) :
  Forall2 (fun r r' =>
             Payment.same_but_status r r'
             /\ Payment.status r' = if hit r then s else Payment.status r)
          l (map (fun r => if hit r then Payment.set_status s r else r) l).
Proof.
  induction l as [|x l IH]; simpl; constructor; [|exact IH].
  destruct (hit x); [apply set_status_same|].
  split; [apply same_but_status_refl | reflexivity].
Qed.

End PaymentFacts.

Section PatchPaymentFacts.
Variable key_equals : Z -> string -> bool.

Lemma patch_payment_accepted id status lower db :
  status_accepted status lower ->
  patch_payment key_equals id status db =
  let hit r := key_equals (Payment.id r) id in
  let db' :=
    mkStore (map (fun r => if hit r then Payment.set_status lower r else r)
                 (payments db))
            (payments_seq db) (pricing db) (pricing_seq db) in
  if (List.length (filter hit (payments db)) =? 0)%nat
  then (Http.fail 404 "Payment record not found.", db')
  else (Http.ok "Payment status updated.", db').
Proof.
  intros [T [L I]]. unfold patch_payment, JS.falsy.
  rewrite T, L, I. reflexivity.
Qed.

(** C6.  For a status that passes the validation, [PATCH /api/payment/:id]
    sets the status of the rows whose key matches [id] to the lower-case
    form of the status and changes no other column and no other row.  It
    replies with the 404 "not found" exactly when no row has that key, and
    then the store is left as it was; otherwise it reports the update. *)
Theorem patch_payment_updates_status
  (id : string) (status : JS.value) (lower : string) (db : store) :
  status_accepted status lower ->
  let hit r := key_equals (Payment.id r) id in
  let reply := fst (patch_payment key_equals id status db) in
  let db' := snd (patch_payment key_equals id status db) in
  Forall2 (fun r r' =>
             Payment.same_but_status r r'
             /\ Payment.status r' =
                if hit r then lower else Payment.status r)
          (payments db) (payments db')
  /\ payments_seq db' = payments_seq db
  /\ pricing db' = pricing db
  /\ pricing_seq db' = pricing_seq db
  /\ (Http.NotFoundError reply <->
      forall r, In r (payments db) -> hit r = false)
  /\ (Http.NotFoundError reply -> db' = db)
  /\ (~ Http.NotFoundError reply -> reply = Http.ok "Payment status updated.").
Proof.
  intros A hit reply db'. subst reply db'.
  rewrite (patch_payment_accepted id status lower db A). cbv zeta.
  fold hit.
  assert (N : (List.length (filter hit (payments db)) =? 0)%nat = true <->
              forall r, In r (payments db) -> hit r = false).
  { rewrite Nat.eqb_eq. apply PaymentFacts.no_hit_count. }
  destruct (List.length (filter hit (payments db)) =? 0)%nat eqn:E; simpl.
  - assert (H : forall r, In r (payments db) -> hit r = false)
      by now apply N.
    split; [apply PaymentFacts.update_rows|].
    do 3 (split; [reflexivity|]).
    split; [split; [intros _; exact H|]|split].
    + intros _. now exists "Payment record not found.".
    + intros _. rewrite (PaymentFacts.no_hit_map hit _ _ H).
      now destruct db.
    + intros C. exfalso. apply C. now exists "Payment record not found.".
  - split; [apply PaymentFacts.update_rows|].
    do 3 (split; [reflexivity|]).
    split; [split|split].
    + intros [msg C]. discriminate.
    + intros H. apply N in H. discriminate.
    + intros [msg C]. discriminate.
    + reflexivity.
Qed.

End PatchPaymentFacts.

Lemma patch_payment_updates_status_witness :
  let db :=
    mkStore [Payment.mk 1 "A" "9876543210" "a@b.cd" "" "order_1"
               (JS.Str "29.85") num_199 num_85 "pending" (JS.Str "1")]
            1 [] 0 in
  payments (snd (patch_payment decimal_key "1" (JS.Str "Success") db)) =
    [Payment.mk 1 "A" "9876543210" "a@b.cd" "" "order_1"
       (JS.Str "29.85") num_199 num_85 "success" (JS.Str "1")]
  /\ Http.NotFoundError
       (fst (patch_payment decimal_key "7" (JS.Str "Success") db)).
Proof.
  intros db. split; [reflexivity|].
  apply (proj1 (proj2 (proj2 (proj2 (proj2
    (patch_payment_updates_status decimal_key "7" (JS.Str "Success")
       "success" db (conj eq_refl (conj eq_refl eq_refl)))))))).
  intros r [<-|[]]. reflexivity.
Defined.

(** ** Payment submission *)

Arguments Num.toFixed : simpl never.
Arguments Num.toString : simpl never.
Arguments JS.parseFloat : simpl never.
Arguments JS.ToString : simpl never.
Arguments discounted : simpl never.
Arguments sanitizeString : simpl never.
Arguments RegExp.test : simpl never.
Arguments Str.includes : simpl never.
Arguments Str.toLowerCase : simpl never.

Lemma required_present_falsy (body : PaymentBody.t) :
  required_present body = true ->
  JS.falsy (PaymentBody.fullName body) || JS.falsy (PaymentBody.phone body)
  || JS.falsy (PaymentBody.email body) || JS.falsy (PaymentBody.amount body)
  || JS.falsy (PaymentBody.status body) || JS.falsy (PaymentBody.date body)
  || JS.falsy (PaymentBody.orderId body) = false.
Proof.
  unfold required_present, JS.falsy. intros H.
  repeat (apply andb_true_iff in H; destruct H as [H ?]).
  repeat match goal with E : JS.truthy _ = true |- _ => rewrite E; clear E end.
  reflexivity.
Qed.

Lemma format_valid_status (body : PaymentBody.t) :
  format_valid body = true ->
  exists raw, PaymentBody.status body = JS.Str raw
    /\ Str.includes validStatuses (Str.toLowerCase raw) = true.
Proof.
  unfold format_valid. intros H.
  apply andb_true_iff in H. destruct H as [_ H].
  destruct (PaymentBody.status body); try discriminate.
  eexists. split; [reflexivity | exact H].
Qed.

Section PostPaymentFacts.
Variable payments_fetch : JS.value -> option Gateway.payment.
Variable RAZORPAY_KEY_SECRET : option string.
Variable hmac_sha256_hex : string -> string -> string.

(** The handler and its reconciliation step in this environment. *)
Local Abbreviation submit :=
  (post_payment payments_fetch RAZORPAY_KEY_SECRET hmac_sha256_hex)
  (only parsing).
Local Abbreviation reconcile :=
  (verify payments_fetch RAZORPAY_KEY_SECRET hmac_sha256_hex) (only parsing).

(** What the handler does once the format validations have passed. *)
Lemma post_payment_valid (body : PaymentBody.t) (db : store) (raw : string) :
  format_valid body = true ->
  PaymentBody.status body = JS.Str raw ->
  submit body db =
  match pricing db with
  | [] => (Http.fail 400 "No pricing data available.", db)
  | r :: _ =>
      if negb (amount_matches body r) then
        (Http.fail 400
           ("Invalid amount. Expected " ++ expectedFinalPrice r
            ++ ", received " ++ JS.ToString (PaymentBody.amount body) ++ "."),
         db)
      else
        match reconcile (PaymentBody.paymentId body) (PaymentBody.orderId body)
                     (Str.toLowerCase raw) with
        | Some reply => (reply, db)
        | None =>
            (Http.ok "Payment saved.",
             Sql.insert_payment
               (sanitizeString (PaymentBody.fullName body))
               (sanitizeString (PaymentBody.phone body))
               (sanitizeString (PaymentBody.email body))
               (if JS.truthy (PaymentBody.paymentId body)
                then sanitizeString (PaymentBody.paymentId body) else "")
               (sanitizeString (PaymentBody.orderId body))
               (PaymentBody.amount body)
               (Pricing.basePrice r) (Pricing.discountPercentage r)
               raw (PaymentBody.date body) db)
        end
  end.
Proof.
  intros V S. unfold post_payment.
  pose proof V as V'. unfold format_valid in V'.
  do 3 (apply andb_true_iff in V'; destruct V' as [V' ?]).
  rewrite (required_present_falsy body V'). clear V'.
  rewrite S in *. simpl JS.toLowerCase in *.
  repeat match goal with E : _ = true |- _ => rewrite E; clear E end.
  cbn [negb]. unfold Sql.select_pricing_limit_1.
  destruct (pricing db) as [|r rest]; reflexivity.
Qed.

(** The phone check of the handler is [phone_accepted]: with every
    required field present, the reply is the 400 of the phone exactly when
    the field is not accepted. *)
Lemma phone_check_decides (body : PaymentBody.t) (db : store) :
  required_present body = true ->
  fst (submit body db) = Http.fail 400 "Phone number must be 10 digits."
  <-> phone_accepted (PaymentBody.phone body) = false.
Proof.
  intros R. unfold post_payment, phone_accepted.
  rewrite (required_present_falsy body R).
  destruct (RegExp.test phoneRegex _); cbn [negb fst].
  - split; [|discriminate]. intros H. exfalso. revert H.
    destruct (negb (RegExp.test emailRegex _)); [discriminate|].
    destruct (PaymentBody.status body) as [| | | |raw]; try discriminate.
    cbn [JS.toLowerCase].
    destruct (negb (Str.includes validStatuses _)); [discriminate|].
    destruct (Sql.select_pricing_limit_1 db) as [|r rest]; [discriminate|].
    destruct (negb (String.eqb _ _)); [discriminate|].
    unfold verify, generatedSignature.
    destruct (JS.truthy _ && String.eqb _ _); [|discriminate].
    destruct (payments_fetch _) as [payment|]; [|discriminate].
    destruct (_ || _); [discriminate|].
    destruct RAZORPAY_KEY_SECRET; discriminate.
  - split; reflexivity.
Qed.

(** C1.  When a request has passed the format validations and the
    client's amount, formatted with two decimals, is not the expected final
    price of the pricing row, formatted with two decimals, the handler
    replies 400 with a message that contains the expected price and the
    amount as received, and the store is left as it was: no payment row is
    written. *)
Theorem amount_mismatch_rejected
  (body : PaymentBody.t) (db : store) (r : Pricing.row)
  (rest : list Pricing.row) :
  format_valid body = true ->
  pricing db = r :: rest ->
  Num.toFixed 2 (JS.parseFloat (PaymentBody.amount body))
    <> Num.toFixed 2 (discounted (Pricing.basePrice r)
                                 (Pricing.discountPercentage r)) ->
  exists msg,
    submit body db = (Http.fail 400 msg, db)
    /\ Http.ValidationError (fst (submit body db))
    /\ payments (snd (submit body db)) = payments db
    /\ Str.contains msg (expectedFinalPrice r)
    /\ Str.contains msg (JS.ToString (PaymentBody.amount body)).
Proof.
  intros V P M.
  destruct (format_valid_status body V) as [raw [S _]].
  rewrite (post_payment_valid body db raw V S), P.
  unfold amount_matches.
  apply String.eqb_neq in M. fold (expectedFinalPrice r) in M. rewrite M.
  cbn [negb fst snd].
  eexists. split; [reflexivity|].
  split; [eexists; reflexivity|].
  split; [reflexivity|].
  split.
  - apply contains_middle.
  - exists ("Invalid amount. Expected " ++ expectedFinalPrice r
            ++ ", received "), ".".
    now rewrite !append_assoc.
Qed.

Lemma verify_refused (paymentId orderId : JS.value) :
  JS.truthy paymentId = true ->
  gateway_refuses payments_fetch paymentId orderId ->
  reconcile paymentId orderId "success" =
    Some (Http.fail 400
            (match payments_fetch paymentId with
             | None => "Payment verification failed."
             | Some _ => "Invalid payment or order ID."
             end)).
Proof.
  unfold gateway_refuses, verify. intros T G. rewrite T.
  cbn [andb]. change (String.eqb "success" "success") with true. cbv iota.
  destruct (payments_fetch paymentId) as [p|]; [|reflexivity].
  destruct G as [G|G]; rewrite G; [reflexivity|].
  now rewrite orb_true_r.
Qed.

(** A request that fails a format validation is answered with the 400 of
    that validation, or leaves the handler by the TypeError of a status
    that is no string; either way the store is left as it was. *)
Lemma post_payment_invalid (body : PaymentBody.t) (db : store) :
  format_valid body = false ->
  (exists msg, In msg format_errors
               /\ submit body db = (Http.fail 400 msg, db))
  \/ (JS.toLowerCase (PaymentBody.status body) = None
      /\ exists e, submit body db = (Http.Thrown e, db)).
Proof.
  unfold format_valid, post_payment, format_errors. intros V.
  destruct (required_present body) eqn:R.
  - rewrite (required_present_falsy body R).
    destruct (RegExp.test phoneRegex _); cbn [negb andb] in *;
      [|left; eexists; split; [right; left; reflexivity | reflexivity]].
    destruct (RegExp.test emailRegex _); cbn [negb andb] in *;
      [|left; eexists; split; [do 2 right; left; reflexivity | reflexivity]].
    destruct (PaymentBody.status body); simpl JS.toLowerCase in *;
      try (right; split; [reflexivity | eexists; reflexivity]).
    cbv beta iota in *. rewrite V. cbn [negb].
    left. eexists. split; [do 3 right; left; reflexivity | reflexivity].
  - left. exists "Missing required fields.". split; [now left|].
    replace (_ || _) with true; [reflexivity|].
    symmetry. unfold required_present in R. unfold JS.falsy.
    destruct (JS.truthy (PaymentBody.fullName body)); [|reflexivity].
    destruct (JS.truthy (PaymentBody.phone body)); [|reflexivity].
    destruct (JS.truthy (PaymentBody.email body)); [|reflexivity].
    destruct (JS.truthy (PaymentBody.amount body)); [|reflexivity].
    destruct (JS.truthy (PaymentBody.status body)); [|reflexivity].
    destruct (JS.truthy (PaymentBody.date body)); [|reflexivity].
    destruct (JS.truthy (PaymentBody.orderId body)); [discriminate|].
    reflexivity.
Qed.

(** C2.  For a request with a payment id (a truthy [paymentId], as line 231
    tests it) and a status that reads "success" in lower case, when the
    gateway lookup is rejected or returns another order id or a status
    other than "captured", the handler replies 400 and the store is left
    as it was: no payment row is written.  When the
    request has reached the reconciliation the 400 is the one of the
    verification: "Payment verification failed." for a rejected lookup,
    "Invalid payment or order ID." for a payment that does not match. *)
Theorem unverified_payment_rejected (body : PaymentBody.t) (db : store) :
  JS.truthy (PaymentBody.paymentId body) = true ->
  JS.toLowerCase (PaymentBody.status body) = Some "success" ->
  gateway_refuses payments_fetch (PaymentBody.paymentId body)
                  (PaymentBody.orderId body) ->
  snd (submit body db) = db
  /\ Http.ValidationError (fst (submit body db))
  /\ (reaches_reconciliation body db ->
      fst (submit body db) =
        Http.fail 400
          (match payments_fetch (PaymentBody.paymentId body) with
           | None => "Payment verification failed."
           | Some _ => "Invalid payment or order ID."
           end)).
Proof.
  intros T L G.
  destruct (format_valid body) eqn:V.
  - destruct (PaymentBody.status body) as [| | | |raw] eqn:S;
      try discriminate.
    simpl in L. injection L as L.
    rewrite (post_payment_valid body db raw V S), L.
    rewrite (verify_refused _ _ T G).
    destruct (pricing db) as [|r rest] eqn:P.
    + split; [reflexivity|]. split; [eexists; reflexivity|].
      intros [_ [r [rest [C _]]]]. congruence.
    + destruct (amount_matches body r) eqn:A; cbn [negb fst snd].
      * split; [reflexivity|]. split; [eexists; reflexivity|]. reflexivity.
      * split; [reflexivity|]. split; [eexists; reflexivity|].
        intros [_ [r' [rest' [C A']]]].
        assert (r' = r) by congruence. subst r'. congruence.
  - destruct (post_payment_invalid body db V) as [[msg [_ E]]|[N _]].
    + rewrite E. split; [reflexivity|]. split; [eexists; reflexivity|].
      intros [C _]. congruence.
    + congruence.
Qed.

End PostPaymentFacts.

Lemma amount_mismatch_rejected_witness :
  exists msg,
    post_payment gateway_captured (Some "k") no_hmac
                 (request JS.Undefined "30.00" "pending") store_0
      = (Http.fail 400 msg, store_0)
    /\ Str.contains msg "29.85" /\ Str.contains msg "30.00".
Proof.
  destruct (amount_mismatch_rejected gateway_captured (Some "k") no_hmac
              (request JS.Undefined "30.00" "pending") store_0
              (Pricing.mk 1 num_199 num_85 0) [])
    as [msg [E [_ [_ [C1 C2]]]]].
  - vm_compute. reflexivity.
  - reflexivity.
  - vm_compute. discriminate.
  - exists msg. split; [exact E|]. split; [exact C1 | exact C2].
Defined.

Lemma unverified_payment_rejected_witness :
  post_payment gateway_other_order (Some "k") no_hmac
               (request (JS.Str "pay_1") "29.85" "Success") store_0
  = (Http.fail 400 "Invalid payment or order ID.", store_0).
Proof.
  destruct (unverified_payment_rejected gateway_other_order (Some "k")
              no_hmac (request (JS.Str "pay_1") "29.85" "Success") store_0)
    as [D [_ R]].
  - reflexivity.
  - reflexivity.
  - left. reflexivity.
  - rewrite (surjective_pairing (post_payment _ _ _ _ _)), D, R.
    + reflexivity.
    + split; [vm_compute; reflexivity|].
      exists (Pricing.mk 1 num_199 num_85 0), [].
      split; [reflexivity | vm_compute; reflexivity].
Defined.

(** ** The signature of the reconciliation *)

(** The reconciliation step never looks at the signature it computes. *)
Lemma verify_ignores_signature
  (payments_fetch : JS.value -> option Gateway.payment)
  (key1 key2 : string) (hmac1 hmac2 : string -> string -> string)
  (paymentId orderId : JS.value) (lower : string) :
  verify payments_fetch (Some key1) hmac1 paymentId orderId lower
  = verify payments_fetch (Some key2) hmac2 paymentId orderId lower.
Proof.
  unfold verify, generatedSignature.
  destruct (JS.truthy paymentId && String.eqb lower "success");
    [|reflexivity].
  destruct (payments_fetch paymentId) as [payment|]; [|reflexivity].
  destruct (_ || _); reflexivity.
Qed.

(** C9.  The signature computed at lines 238-241 is not compared with
    anything: under any two keys and any two HMAC functions, the handler
    gives the same reply and leaves the same store. *)
Theorem signature_never_gates
  (payments_fetch : JS.value -> option Gateway.payment)
  (key1 key2 : string) (hmac1 hmac2 : string -> string -> string)
  (body : PaymentBody.t) (db : store) :
  post_payment payments_fetch (Some key1) hmac1 body db
  = post_payment payments_fetch (Some key2) hmac2 body db.
Proof.
  unfold post_payment.
  destruct (_ || _); [reflexivity|].
  destruct (negb (RegExp.test phoneRegex _)); [reflexivity|].
  destruct (negb (RegExp.test emailRegex _)); [reflexivity|].
  destruct (PaymentBody.status body) as [| | | |raw];
    [reflexivity | reflexivity | reflexivity | reflexivity |].
  cbn [JS.toLowerCase].
  destruct (negb (Str.includes validStatuses _)); [reflexivity|].
  destruct (Sql.select_pricing_limit_1 db) as [|r rest]; [reflexivity|].
  destruct (negb (String.eqb _ _)); [reflexivity|].
  now rewrite (verify_ignores_signature payments_fetch key1 key2 hmac1 hmac2).
Qed.

(** The key matters only by being set: without one [createHmac] raises,
    and the handler answers as for a failed verification. *)
Lemma signature_needs_a_key :
  post_payment gateway_captured None no_hmac
               (request (JS.Str "pay_1") "29.85" "success") store_0
    = (Http.fail 400 "Payment verification failed.", store_0)
  /\ fst (post_payment gateway_captured (Some "k") no_hmac
                       (request (JS.Str "pay_1") "29.85" "success") store_0)
     = Http.ok "Payment saved.".
Proof. split; vm_compute; reflexivity. Qed.

(** ** The status a submission stores *)

Section StoredStatus.
Variable payments_fetch : JS.value -> option Gateway.payment.
Variable RAZORPAY_KEY_SECRET : option string.
Variable hmac_sha256_hex : string -> string -> string.

Local Abbreviation submit :=
  (post_payment payments_fetch RAZORPAY_KEY_SECRET hmac_sha256_hex)
  (only parsing).

(** When [POST /api/payment] changes the store, it appends one row, and
    the status of that row is the status of the request as it was sent:
    line 252 binds [status], not [status.toLowerCase()]. *)
Lemma post_payment_stores_raw_status (body : PaymentBody.t) (db : store) :
  snd (submit body db) = db
  \/ exists raw row,
       PaymentBody.status body = JS.Str raw
       /\ Payment.status row = raw
       /\ Str.includes validStatuses (Str.toLowerCase raw) = true
       /\ payments (snd (submit body db)) = (payments db ++ [row])%list.
Proof.
  destruct (format_valid body) eqn:V.
  - destruct (format_valid_status body V) as [raw [S I]].
    rewrite (post_payment_valid _ _ _ body db raw V S).
    destruct (pricing db) as [|r rest]; [now left|].
    destruct (negb (amount_matches body r)); [now left|].
    destruct (verify _ _ _ _ _ _); [now left|].
    right. eexists raw, _.
    split; [exact S|]. split; [|split; [exact I|]].
    2: reflexivity. reflexivity.
  - left.
    destruct (post_payment_invalid payments_fetch RAZORPAY_KEY_SECRET
                hmac_sha256_hex body db V) as [[msg [_ E]]|[_ [e E]]];
      now rewrite E.
Qed.

(** C4 at a request with the status ["Success"]: the request is accepted
    and the row it stores has the status ["Success"], which is none of the
    three lower-case words.  [PATCH /api/payment/:id] given the same
    status stores ["success"]. *)
Theorem submitted_status_keeps_its_case :
  fst (submit (request JS.Undefined "29.85" "Success") store_0)
    = Http.ok "Payment saved."
  /\ map Payment.status
         (payments (snd (submit (request JS.Undefined "29.85" "Success")
                                store_0)))
     = ["Success"]
  /\ Str.includes validStatuses "Success" = false
  /\ map Payment.status
         (payments
            (snd (patch_payment decimal_key "1" (JS.Str "Success")
                    (snd (submit (request JS.Undefined "29.85" "Success")
                                 store_0)))))
     = ["success"].
Proof. repeat split; vm_compute; reflexivity. Qed.

End StoredStatus.

(** ** Pricing updates *)

(** C3 at the body [{ basePrice: 199, discountPercentage: 0 }]: the
    number 0 is falsy, so the handler answers that the fields are required
    and leaves the pricing as it was, whatever the base price.  The same
    discount sent as the text ["0"] is accepted, and the in-memory variant
    of the route accepts the number. *)
Theorem zero_discount_rejected (now : Z) (basePrice : JS.value) (db : store) :
  post_pricing now (PricingBody.mk basePrice (JS.Number num_0)) db
    = (Http.fail 400 "basePrice and discountPercentage are required.", db)
  /\ fst (post_pricing now (PricingBody.mk (JS.Number num_199) (JS.Str "0"))
                       store_0)
     = Http.Sent (Http.mk 200 true (Some "Pricing updated successfully.")
                    (Http.PricingData "199.00" "0.0" "199.00"))
  /\ InMemory.post_pricing now
       (PricingBody.mk (JS.Number num_199) (JS.Number num_0))
       (InMemory.mk num_199 num_85 0)
     = inr (InMemory.mk num_199 num_0 now).
Proof.
  split; [|split; vm_compute; reflexivity].
  unfold post_pricing. cbn [PricingBody.basePrice PricingBody.discountPercentage].
  replace (JS.falsy (JS.Number num_0)) with true by reflexivity.
  now rewrite orb_true_r.
Qed.

(** For two truthy fields whose numbers are in range, on a store whose
    pricing row has the key 1, the update succeeds and the next
    [GET /api/pricing] reports the final price of the new pricing. *)
Lemma post_pricing_then_get
  (now : Z) (body : PricingBody.t) (db : store)
  (r : Pricing.row) (rest : list Pricing.row) :
  JS.truthy (PricingBody.basePrice body) = true ->
  JS.truthy (PricingBody.discountPercentage body) = true ->
  pricing_in_range (JS.parseFloat (PricingBody.basePrice body))
                   (JS.parseFloat (PricingBody.discountPercentage body))
    = true ->
  pricing db = r :: rest -> Pricing.id r = 1 ->
  let b := JS.parseFloat (PricingBody.basePrice body) in
  let d := JS.parseFloat (PricingBody.discountPercentage body) in
  let db' := snd (post_pricing now body db) in
  Http.succeeds (fst (post_pricing now body db))
  /\ exists shown_b shown_d,
       get_pricing db' =
       (Http.Sent (Http.mk 200 true None
          (Http.PricingData shown_b shown_d (Num.toFixed 2 (discounted b d)))),
        db').
Proof.
  intros Tb Td R P K b d db'. subst db'.
  unfold post_pricing, JS.falsy. rewrite Tb, Td. cbn [negb orb].
  unfold pricing_in_range in R. apply andb_true_iff in R.
  destruct R as [Rb Rd]. apply negb_true_iff in Rb, Rd.
  rewrite Rb. fold b d. fold b d in Rd. rewrite Rd.
  unfold Sql.update_pricing_id_1. rewrite P.
  cbn [map filter List.length]. rewrite K.
  change (1 =? 1) with true. cbn [List.length Nat.eqb fst snd].
  split.
  - eexists. split; reflexivity.
  - unfold get_pricing, Sql.select_pricing_limit_1.
    cbn [pricing firstn Pricing.basePrice Pricing.discountPercentage].
    eexists _, _. reflexivity.
Qed.

(** ** Listing the payments *)

Section ListPaymentsFacts.
Variable order_by_date_desc : list Payment.row -> list Payment.row.

(** An ORDER BY clause rearranges the rows of the result; it neither drops
    nor adds any. *)
Hypothesis order_by_permutes :
  forall rows, Permutation rows (order_by_date_desc rows).

(** [GET /api/payments] returns every row of the table, each once, and
    leaves the store as it is.  The query has no second sort key: the order
    of the rows, and of rows with the same date in particular, is the one
    the store gives to the result. *)
Lemma get_payments_all (db : store) :
  exists rows,
    get_payments order_by_date_desc db =
      (Http.Sent (Http.mk 200 true None (Http.PaymentRows rows)), db)
    /\ Permutation (payments db) rows
    /\ forall r, In r rows <-> In r (payments db).
Proof.
  exists (order_by_date_desc (payments db)).
  split; [reflexivity|]. split; [apply order_by_permutes|].
  intros r. split; intros H.
  - eapply Permutation_in; [apply Permutation_sym, order_by_permutes | exact H].
  - eapply Permutation_in; [apply order_by_permutes | exact H].
Qed.

End ListPaymentsFacts.

(* ================================================================== *)
(** * Further properties of the code *)

(** ** The e-mail pattern *)

Module EmailFacts.
Import RegExp RegExpFacts.

Lemma forallb_app (q : ascii -> bool) (u v : string) :
  Str.forallb q (u ++ v) = Str.forallb q u && Str.forallb q v.
Proof.
  induction u as [|c u IH]; simpl; [reflexivity|].
  now rewrite IH, andb_assoc.
Qed.

Lemma length_app (u v : string) :
  String.length (u ++ v) = (String.length u + String.length v)%nat.
Proof. induction u as [|c u IH]; simpl; [reflexivity | now rewrite IH]. Qed.

Lemma lang_star_class (q : ascii -> bool) (s : string) :
  lang (Star (Class q)) s <-> Str.forallb q s = true.
Proof.
  induction s as [|c s IH]; simpl.
  - split; [reflexivity | intros _; constructor].
  - rewrite lang_star_cons_inv, andb_true_iff, <- IH. split.
    + intros [u [v [E [Hu Hv]]]]. apply lang_class_inv in Hu.
      destruct Hu as [d [Ed Qd]]. inversion Ed; subst. now split.
    + intros [Qc H]. exists "", s. repeat split; [now constructor | exact H].
Qed.

Lemma lang_plus_class (q : ascii -> bool) (s : string) :
  lang (Plus (Class q)) s <-> s <> "" /\ Str.forallb q s = true.
Proof.
  unfold Plus. split.
  - intros H. apply lang_seq_inv in H. destruct H as [u [v [E [Hu Hv]]]].
    apply lang_class_inv in Hu. destruct Hu as [c [-> Qc]].
    apply lang_star_class in Hv. subst s. simpl. rewrite Qc, Hv.
    split; [discriminate | reflexivity].
  - intros [N F]. destruct s as [|c s]; [congruence|].
    simpl in F. apply andb_true_iff in F. destruct F as [Qc F].
    change (String c s) with (String c "" ++ s). constructor.
    + now constructor.
    + now apply lang_star_class.
Qed.

Lemma lang_char (x : ascii) (s : string) :
  lang (Class (Chars.is_char x)) s <-> s = String x "".
Proof.
  split.
  - intros H. apply lang_class_inv in H. destruct H as [c [-> E]].
    unfold Chars.is_char in E. apply Ascii.eqb_eq in E. now subst.
  - intros ->. constructor. apply Ascii.eqb_refl.
Qed.

(** Two letters or more. *)
Lemma lang_tld (s : string) :
  lang (Seq (Times 2 (Class Chars.is_letter)) (Star (Class Chars.is_letter))) s
  <-> (2 <= String.length s)%nat /\ Str.forallb Chars.is_letter s = true.
Proof.
  split.
  - intros H. apply lang_seq_inv in H. destruct H as [u [v [-> [Hu Hv]]]].
    apply lang_times_class in Hu. destruct Hu as [L F].
    apply lang_star_class in Hv.
    rewrite length_app, forallb_app, L, F, Hv. split; [lia | reflexivity].
  - intros [L F]. destruct s as [|a [|b s]]; simpl in L; try lia.
    change (String a (String b s)) with (String a (String b "") ++ s).
    simpl in F. apply andb_true_iff in F. destruct F as [Fa F].
    apply andb_true_iff in F. destruct F as [Fb F].
    constructor.
    + apply lang_times_class. simpl. now rewrite Fa, Fb.
    + now apply lang_star_class.
Qed.

End EmailFacts.

(** X1.  The e-mail check of lines 203-207 accepts a sanitized address exactly
    when it reads [local@domain.tld]: a non-empty local part of letters,
    digits, [.], [_] and [-]; a non-empty domain of letters, digits, [.]
    and [-]; and, after the last dot, two letters or more. *)
Theorem email_accepted_shape (s : string) :
  RegExp.test emailRegex s = true <->
  exists l d t,
    s = l ++ "@" ++ d ++ "." ++ t
    /\ l <> "" /\ Str.forallb email_local l = true
    /\ d <> "" /\ Str.forallb email_domain d = true
    /\ (2 <= String.length t)%nat /\ Str.forallb Chars.is_letter t = true.
Proof.
  rewrite RegExpFacts.test_lang. unfold emailRegex. split.
  - intros H.
    apply RegExpFacts.lang_seq_inv in H. destruct H as [l [r1 [-> [Hl H]]]].
    apply RegExpFacts.lang_seq_inv in H. destruct H as [a [r2 [-> [Ha H]]]].
    apply RegExpFacts.lang_seq_inv in H. destruct H as [d [r3 [-> [Hd H]]]].
    apply RegExpFacts.lang_seq_inv in H. destruct H as [p [t [-> [Hp Ht]]]].
    apply EmailFacts.lang_plus_class in Hl, Hd.
    apply EmailFacts.lang_char in Ha, Hp. subst a p.
    apply EmailFacts.lang_tld in Ht.
    exists l, d, t. tauto.
  - intros [l [d [t [-> [Nl [Fl [Nd [Fd [Lt Ft]]]]]]]]].
    constructor; [now apply EmailFacts.lang_plus_class|].
    constructor; [now apply EmailFacts.lang_char|].
    constructor; [now apply EmailFacts.lang_plus_class|].
    constructor; [now apply EmailFacts.lang_char|].
    now apply EmailFacts.lang_tld.
Qed.

(** ** What a submission writes *)

Lemma fail_not_success (code : nat) (msg : string) :
  ~ Http.succeeds (Http.fail code msg).
Proof. intros [r [E S]]. inversion E; subst. discriminate. Qed.

Lemma thrown_not_success (e : string) : ~ Http.succeeds (Http.Thrown e).
Proof. intros [r [E S]]. discriminate. Qed.

Lemma sanitizeString_safe (v : JS.value) :
  Str.forallb Chars.is_safe (sanitizeString v) = true.
Proof.
  destruct v; try reflexivity. unfold sanitizeString. apply filter_all.
Qed.

Section SubmissionFacts.
Variable payments_fetch : JS.value -> option Gateway.payment.
Variable RAZORPAY_KEY_SECRET : option string.
Variable hmac_sha256_hex : string -> string -> string.

Local Abbreviation submit :=
  (post_payment payments_fetch RAZORPAY_KEY_SECRET hmac_sha256_hex)
  (only parsing).
Local Abbreviation reconcile :=
  (verify payments_fetch RAZORPAY_KEY_SECRET hmac_sha256_hex) (only parsing).

Lemma verify_reply (paymentId orderId : JS.value) (lower : string)
  (reply : Http.outcome) :
  reconcile paymentId orderId lower = Some reply ->
  exists msg, reply = Http.fail 400 msg.
Proof.
  unfold verify, generatedSignature.
  destruct (JS.truthy paymentId && String.eqb lower "success");
    [|discriminate].
  destruct (payments_fetch paymentId) as [p|];
    [|intros E; injection E as <-; eauto].
  destruct (_ || _); [intros E; injection E as <-; eauto|].
  destruct RAZORPAY_KEY_SECRET; [discriminate|].
  intros E. injection E as <-. eauto.
Qed.

(** The two ways a submission ends: nothing is written and the reply is
    no success, or every check has passed and the row is inserted. *)
Lemma post_payment_outcome (body : PaymentBody.t) (db : store) :
  (snd (submit body db) = db /\ ~ Http.succeeds (fst (submit body db)))
  \/ exists raw r rest,
       format_valid body = true
       /\ PaymentBody.status body = JS.Str raw
       /\ pricing db = r :: rest
       /\ amount_matches body r = true
       /\ submit body db =
          (Http.ok "Payment saved.",
           Sql.insert_payment
             (sanitizeString (PaymentBody.fullName body))
             (sanitizeString (PaymentBody.phone body))
             (sanitizeString (PaymentBody.email body))
             (if JS.truthy (PaymentBody.paymentId body)
              then sanitizeString (PaymentBody.paymentId body) else "")
             (sanitizeString (PaymentBody.orderId body))
             (PaymentBody.amount body)
             (Pricing.basePrice r) (Pricing.discountPercentage r)
             raw (PaymentBody.date body) db).
Proof.
  destruct (format_valid body) eqn:V.
  - destruct (format_valid_status body V) as [raw [S I]].
    rewrite (post_payment_valid _ _ _ body db raw V S).
    destruct (pricing db) as [|r rest] eqn:P.
    + left. split; [reflexivity | apply fail_not_success].
    + destruct (amount_matches body r) eqn:A; cbn [negb].
      * destruct (reconcile _ _ _) as [reply|] eqn:R.
        -- left. destruct (verify_reply _ _ _ _ R) as [msg ->].
           split; [reflexivity | apply fail_not_success].
        -- right. exists raw, r, rest. now repeat split.
      * left. split; [reflexivity | apply fail_not_success].
  - left.
    destruct (post_payment_invalid payments_fetch RAZORPAY_KEY_SECRET
                hmac_sha256_hex body db V) as [[msg [_ E]]|[_ [e E]]];
      rewrite E; split; try reflexivity.
    + apply fail_not_success.
    + apply thrown_not_success.
Qed.

(** X2.  [POST /api/payment] writes exactly when it reports the payment saved:
    then one row is appended, under the next key, and nothing else in the
    store changes; with any other reply the store is left as it was. *)
Theorem post_payment_writes_iff_saved (body : PaymentBody.t) (db : store) :
  (fst (submit body db) = Http.ok "Payment saved."
   /\ exists row,
        Payment.id row = payments_seq db + 1
        /\ snd (submit body db) =
           mkStore (payments db ++ [row])%list (payments_seq db + 1)
                   (pricing db) (pricing_seq db))
  \/ (~ Http.succeeds (fst (submit body db)) /\ snd (submit body db) = db).
Proof.
  destruct (post_payment_outcome body db)
    as [[D N]|[raw [r [rest [_ [_ [_ [_ E]]]]]]]].
  - right. now split.
  - left. rewrite E. split; [reflexivity|].
    eexists. split; [|reflexivity]. reflexivity.
Qed.

(** X3.  A status that is present but is no string (a number, [true]) makes
    both handlers raise a TypeError at [status.toLowerCase()], outside
    their [try] block, instead of answering 400: the handler itself
    sends nothing and the store is left as it was.  The client gets the
    500 "Internal server error." of the error middleware when Express
    forwards the rejected handler to it, and no reply when it does not.
    The submission gets there once the required fields, the phone and the
    e-mail have passed. *)
Theorem status_must_be_text
  (key_equals : Z -> string -> bool) (id : string) (status : JS.value)
  (body : PaymentBody.t) (db : store) (forwards : bool) :
  JS.truthy status = true ->
  JS.typeof status <> "string" ->
  PaymentBody.status body = status ->
  required_present body = true ->
  phone_accepted (PaymentBody.phone body) = true ->
  RegExp.test emailRegex (sanitizeString (PaymentBody.email body)) = true ->
  let answer :=
    if forwards
    then Some (Http.mk 500 false (Some "Internal server error.") Http.NoData)
    else None in
  (snd (patch_payment key_equals id status db) = db
   /\ Express.respond forwards (fst (patch_payment key_equals id status db))
      = answer)
  /\ (snd (submit body db) = db
      /\ Express.respond forwards (fst (submit body db)) = answer).
Proof.
  intros T N S R P E answer. subst answer. split.
  - unfold patch_payment, JS.falsy. rewrite T. cbn [negb].
    destruct status; try (split; reflexivity).
    exfalso. now apply N.
  - unfold post_payment. rewrite (required_present_falsy body R).
    unfold phone_accepted in P. rewrite P, E, S. cbn [negb].
    destruct status; try (split; reflexivity).
    exfalso. now apply N.
Qed.

End SubmissionFacts.

Lemma status_must_be_text_witness :
  Express.respond true
    (fst (patch_payment decimal_key "1" (JS.Number num_1) store_0))
  = Some (Http.mk 500 false (Some "Internal server error.") Http.NoData)
  /\ Express.respond false
       (fst (post_payment gateway_captured (Some "k") no_hmac
               (PaymentBody.mk (JS.Str "Asha Rao") (JS.Str "9876543210")
                  (JS.Str "asha@example.com") JS.Undefined
                  (JS.Str "order_1") (JS.Str "29.85") (JS.Number num_1)
                  (JS.Str "1700000000000"))
               store_0))
     = None.
Proof.
  split.
  - apply (status_must_be_text gateway_captured (Some "k") no_hmac
             decimal_key "1" (JS.Number num_1)
             (PaymentBody.mk (JS.Str "Asha Rao") (JS.Str "9876543210")
                (JS.Str "asha@example.com") JS.Undefined
                (JS.Str "order_1") (JS.Str "29.85") (JS.Number num_1)
                (JS.Str "1700000000000"))
             store_0 true);
      solve [reflexivity | vm_compute; reflexivity
             | vm_compute; discriminate].
  - apply (status_must_be_text gateway_captured (Some "k") no_hmac
             decimal_key "1" (JS.Number num_1)
             (PaymentBody.mk (JS.Str "Asha Rao") (JS.Str "9876543210")
                (JS.Str "asha@example.com") JS.Undefined
                (JS.Str "order_1") (JS.Str "29.85") (JS.Number num_1)
                (JS.Str "1700000000000"))
             store_0 false);
      solve [reflexivity | vm_compute; reflexivity
             | vm_compute; discriminate].
Defined.

(** ** What a submission depends on *)

Lemma verify_skipped
  (payments_fetch : JS.value -> option Gateway.payment)
  (key : option string) (hmac : string -> string -> string)
  (paymentId orderId : JS.value) (lower : string) :
  JS.truthy paymentId = false \/ lower <> "success" ->
  verify payments_fetch key hmac paymentId orderId lower = None.
Proof.
  unfold verify. intros [T|N].
  - now rewrite T.
  - apply String.eqb_neq in N. rewrite N. now rewrite andb_false_r.
Qed.

(** X4.  The gateway is consulted only for a request that has a payment id and
    a status reading "success": for any other request the reply and the
    store do not depend on what the gateway would answer.  A request with
    the status "success" and no payment id is therefore recorded without
    any verification. *)
Theorem gateway_only_for_success_with_id
  (fetch1 fetch2 : JS.value -> option Gateway.payment)
  (key : option string) (hmac : string -> string -> string)
  (body : PaymentBody.t) (db : store) :
  JS.truthy (PaymentBody.paymentId body) = false
  \/ JS.toLowerCase (PaymentBody.status body) <> Some "success" ->
  post_payment fetch1 key hmac body db = post_payment fetch2 key hmac body db.
Proof.
  intros H. unfold post_payment.
  destruct (_ || _); [reflexivity|].
  destruct (negb (RegExp.test phoneRegex _)); [reflexivity|].
  destruct (negb (RegExp.test emailRegex _)); [reflexivity|].
  destruct (PaymentBody.status body) as [| | | |raw];
    [reflexivity | reflexivity | reflexivity | reflexivity |].
  cbn [JS.toLowerCase] in *.
  destruct (negb (Str.includes validStatuses _)); [reflexivity|].
  destruct (Sql.select_pricing_limit_1 db) as [|r rest]; [reflexivity|].
  destruct (negb (String.eqb _ _)); [reflexivity|].
  assert (S : JS.truthy (PaymentBody.paymentId body) = false
              \/ Str.toLowerCase raw <> "success").
  { destruct H as [H|H]; [now left | right; congruence]. }
  now rewrite !(verify_skipped _ key hmac _ _ _ S).
Qed.

Lemma gateway_only_for_success_with_id_witness :
  post_payment gateway_down (Some "k") no_hmac
               (request JS.Undefined "29.85" "success") store_0
  = post_payment gateway_other_order (Some "k") no_hmac
                 (request JS.Undefined "29.85" "success") store_0
  /\ fst (post_payment gateway_down (Some "k") no_hmac
                       (request JS.Undefined "29.85" "success") store_0)
     = Http.ok "Payment saved.".
Proof.
  split.
  - apply gateway_only_for_success_with_id. left. reflexivity.
  - vm_compute. reflexivity.
Defined.



(** ** Status updates compose *)

Lemma valid_status_lower (l : string) :
  Str.includes validStatuses l = true -> Str.toLowerCase l = l.
Proof.
  unfold Str.includes, validStatuses. intros H.
  repeat (apply orb_true_iff in H; destruct H as [H|H]);
    try discriminate; apply String.eqb_eq in H; subst l; reflexivity.
Qed.

Section PatchComposition.
Variable key_equals : Z -> string -> bool.

Local Abbreviation hit id :=
  (fun r : Payment.row => key_equals (Payment.id r) id) (only parsing).

Lemma patch_payment_store (id : string) (status : JS.value) (db : store) :
  snd (patch_payment key_equals id status db) = db
  \/ exists lower,
       Str.includes validStatuses lower = true
       /\ snd (patch_payment key_equals id status db) =
          mkStore (map (fun r => if hit id r
                                 then Payment.set_status lower r else r)
                       (payments db))
                  (payments_seq db) (pricing db) (pricing_seq db).
Proof.
  unfold patch_payment.
  destruct (JS.falsy status); [now left|].
  destruct (JS.toLowerCase status) as [lower|]; [|now left].
  destruct (Str.includes validStatuses lower) eqn:I; cbn [negb]; [|now left].
  right. exists lower. split; [exact I|].
  unfold Sql.update_payment_status.
  destruct (_ =? _)%nat; reflexivity.
Qed.

Lemma set_status_hits (id s : string) (l : list Payment.row) :
  filter (hit id)
         (map (fun r => if hit id r then Payment.set_status s r else r) l)
  = map (Payment.set_status s) (filter (hit id) l).
Proof.
  induction l as [|r l IH]; simpl; [reflexivity|].
  destruct (key_equals (Payment.id r) id) eqn:H; simpl; rewrite H, IH;
    reflexivity.
Qed.

Lemma set_status_twice (id s1 s2 : string) (l : list Payment.row) :
  map (fun r => if hit id r then Payment.set_status s2 r else r)
      (map (fun r => if hit id r then Payment.set_status s1 r else r) l)
  = map (fun r => if hit id r then Payment.set_status s2 r else r) l.
Proof.
  rewrite map_map. apply map_ext. intros r.
  destruct (key_equals (Payment.id r) id) eqn:H; [simpl|]; now rewrite H.
Qed.

(** X6.  Two status updates of the same key, one after the other, leave what
    the second alone leaves, with the same reply: the last status wins,
    and an update repeated changes nothing more. *)
Theorem patch_last_status_wins
  (id : string) (s1 s2 : JS.value) (l1 l2 : string) (db : store) :
  status_accepted s1 l1 -> status_accepted s2 l2 ->
  patch_payment key_equals id s2
                (snd (patch_payment key_equals id s1 db))
  = patch_payment key_equals id s2 db.
Proof.
  intros A1 A2.
  rewrite (patch_payment_accepted key_equals id s1 l1 db A1).
  rewrite !(patch_payment_accepted key_equals id s2 l2 _ A2).
  cbv zeta.
  destruct (List.length (filter _ (payments db)) =? 0)%nat eqn:E;
    cbn [snd payments payments_seq pricing pricing_seq];
    rewrite set_status_hits, length_map, set_status_twice, E; reflexivity.
Qed.

End PatchComposition.

Lemma patch_last_status_wins_witness :
  let db := snd (post_payment gateway_captured (Some "k") no_hmac
                   (request JS.Undefined "29.85" "pending") store_0) in
  patch_payment decimal_key "1" (JS.Str "FAILED")
                (snd (patch_payment decimal_key "1" (JS.Str "Success") db))
  = patch_payment decimal_key "1" (JS.Str "FAILED") db.
Proof.
  intros db.
  apply (patch_last_status_wins decimal_key "1" (JS.Str "Success")
           (JS.Str "FAILED") "success" "failed" db).
  - repeat split.
  - repeat split.
Defined.

(** ** What one event does to the store *)

Lemma post_pricing_store (now : Z) (body : PricingBody.t) (db : store) :
  snd (post_pricing now body db) = db
  \/ exists b d,
       pricing_in_range b d = true
       /\ snd (post_pricing now body db) =
          mkStore (payments db) (payments_seq db)
                  (map (fun r => if Pricing.id r =? 1
                                 then Pricing.mk (Pricing.id r) b d now
                                 else r)
                       (pricing db))
                  (pricing_seq db).
Proof.
  unfold post_pricing.
  destruct (_ || _); [now left|].
  destruct (Num.isNaN (JS.parseFloat (PricingBody.basePrice body))
            || Num.leb (JS.parseFloat (PricingBody.basePrice body)) num_0)
    eqn:B; [now left|].
  destruct (Num.isNaN _ || Num.ltb _ num_0 || Num.gtb _ num_100) eqn:D;
    [now left|].
  right. eexists _, _. split.
  - unfold pricing_in_range. rewrite B, D. reflexivity.
  - unfold Sql.update_pricing_id_1. destruct (_ =? _)%nat; reflexivity.
Qed.

Lemma new_row_checked
  (body : PaymentBody.t) (raw : string) (r : Pricing.row) (k : Z) :
  format_valid body = true ->
  PaymentBody.status body = JS.Str raw ->
  amount_matches body r = true ->
  let row :=
    Payment.mk k
      (sanitizeString (PaymentBody.fullName body))
      (sanitizeString (PaymentBody.phone body))
      (sanitizeString (PaymentBody.email body))
      (if JS.truthy (PaymentBody.paymentId body)
       then sanitizeString (PaymentBody.paymentId body) else "")
      (sanitizeString (PaymentBody.orderId body))
      (PaymentBody.amount body)
      (Pricing.basePrice r) (Pricing.discountPercentage r)
      raw (PaymentBody.date body) in
  identity_clean row /\ status_known row /\ amount_at_snapshot row.
Proof.
  intros V S A row. subst row.
  unfold identity_clean, status_known, amount_at_snapshot.
  cbn [Payment.phone Payment.email Payment.fullName Payment.paymentId
       Payment.orderId Payment.status Payment.amount Payment.basePrice
       Payment.discountPercentage].
  unfold format_valid in V. rewrite S in V. cbn [JS.toLowerCase] in V.
  do 3 (apply andb_true_iff in V; destruct V as [V ?]).
  repeat split; try assumption; try apply sanitizeString_safe.
  - destruct (JS.truthy _); [apply sanitizeString_safe | reflexivity].
  - now apply String.eqb_eq in A.
Qed.

(** Every event leaves the store as it was, or seeds the pricing, or
    rewrites the pricing row of key 1 with values in range, or appends
    one checked payment row under the next key, or sets the status of
    some rows to one of the three words. *)
Lemma apply_effect (db : store) (e : Api.event) :
  Api.apply db e = db
  \/ (pricing db = []
      /\ exists now,
           Api.apply db e = Sql.insert_pricing num_199 num_85 now db)
  \/ (exists b d now,
        pricing_in_range b d = true
        /\ Api.apply db e =
           mkStore (payments db) (payments_seq db)
                   (map (fun r => if Pricing.id r =? 1
                                  then Pricing.mk (Pricing.id r) b d now
                                  else r)
                        (pricing db))
                   (pricing_seq db))
  \/ (exists row,
        Payment.id row = payments_seq db + 1
        /\ identity_clean row /\ status_known row /\ amount_at_snapshot row
        /\ Api.apply db e =
           mkStore (payments db ++ [row])%list (payments_seq db + 1)
                   (pricing db) (pricing_seq db))
  \/ (exists (hit : Payment.row -> bool) lower,
        Str.includes validStatuses lower = true
        /\ Api.apply db e =
           mkStore (map (fun r => if hit r
                                  then Payment.set_status lower r else r)
                        (payments db))
                   (payments_seq db) (pricing db) (pricing_seq db)).
Proof.
  destruct e as [now|w q]; simpl.
  - unfold initializeDatabase, Sql.count_pricing.
    destruct (pricing db) eqn:P; simpl; [|now left].
    right. left. split; [reflexivity|]. now exists now.
  - destruct q as [|now body|body|id status|]; simpl.
    + left. unfold get_pricing.
      destruct (Sql.select_pricing_limit_1 db); reflexivity.
    + destruct (post_pricing_store now body db) as [E|[b [d [R E]]]];
        [now left|].
      right. right. left. now exists b, d, now.
    + destruct (post_payment_outcome (Api.payments_fetch w)
                  (Api.key_secret w) (Api.hmac_sha256_hex w) body db)
        as [[E _]|[raw [r [rest [V [S [P [A E]]]]]]]]; [now left|].
      right. right. right. left. rewrite E.
      destruct (new_row_checked body raw r (payments_seq db + 1) V S A)
        as [I [K M]].
      eexists. split; [|split; [exact I|split; [exact K|split; [exact M|]]]];
        reflexivity.
    + destruct (patch_payment_store (Api.key_equals w) id status db)
        as [E|[lower [I E]]]; [now left|].
      right. right. right. right.
      exists (fun r => Api.key_equals w (Payment.id r) id), lower.
      split; [exact I | exact E].
    + now left.
Qed.

Lemma after_invariant (Inv : store -> Prop) :
  (forall t, Inv (initializeDatabase t empty_store)) ->
  (forall db e, Inv db -> Inv (Api.apply db e)) ->
  forall t0 history, Inv (Api.after t0 history).
Proof.
  intros Base Step t0 history. unfold Api.after.
  generalize (Base t0). generalize (initializeDatabase t0 empty_store).
  induction history as [|e h IH]; intros db H; simpl; [exact H|].
  apply IH. now apply Step.
Qed.

(** ** Invariants of the store over any history *)

Lemma NoDup_map_injective (A B : Type) (f : A -> B) (l : list A) :
  (forall x y, f x = f y -> x = y) -> NoDup l -> NoDup (map f l).
Proof.
  intros Inj N. induction N as [|x l Hx N IH]; simpl; constructor.
  - intros H. apply in_map_iff in H. destruct H as [y [E Hy]].
    apply Inj in E. now subst.
  - exact IH.
Qed.

Lemma keys_in_sequence_step (db : store) (e : Api.event) :
  keys_in_sequence db -> keys_in_sequence (Api.apply db e).
Proof.
  intros [K S].
  destruct (apply_effect db e)
    as [E|[[_ [now E]]|[[b [d [now [_ E]]]]|[[row [I [_ [_ [_ E]]]]]
       |[hit [lower [_ E]]]]]]];
    rewrite E; unfold keys_in_sequence; simpl.
  - now split.
  - now split.
  - now split.
  - rewrite length_app, map_app, K. simpl.
    rewrite Nat.add_1_r, seq_S, map_app, I, S. simpl.
    split; [|lia]. do 2 f_equal. lia.
  - rewrite map_map, length_map. split; [|exact S].
    rewrite <- K. apply map_ext. intros r. now destruct (hit r).
Qed.

(** X7.  The keys of the payments are unique and gap-free: after a first start
    on an empty store and any later requests and restarts, the payments
    carry the keys 1, 2, ..., n in the order they were recorded, and the
    counter of the table is n. *)
Theorem payment_keys_in_sequence (t0 : Z) (history : list Api.event) :
  keys_in_sequence (Api.after t0 history)
  /\ NoDup (map Payment.id (payments (Api.after t0 history))).
Proof.
  assert (K : keys_in_sequence (Api.after t0 history)).
  { apply after_invariant.
    - intros t. now split.
    - intros db e. apply keys_in_sequence_step. }
  split; [exact K|]. destruct K as [K _]. rewrite K.
  apply NoDup_map_injective; [apply Nat2Z.inj | apply seq_NoDup].
Qed.

Lemma pricing_singleton_step (db : store) (e : Api.event) :
  pricing_singleton db -> pricing_singleton (Api.apply db e).
Proof.
  intros [b [d [t [P [S R]]]]].
  destruct (apply_effect db e)
    as [E|[[N _]|[[b' [d' [now [R' E]]]]|[[row [_ [_ [_ [_ E]]]]]
       |[hit [lower [_ E]]]]]]].
  - rewrite E. now exists b, d, t.
  - congruence.
  - rewrite E, P. exists b', d', now. now repeat split.
  - rewrite E. now exists b, d, t.
  - rewrite E. now exists b, d, t.
Qed.

Lemma pricing_singleton_after (t0 : Z) (history : list Api.event) :
  pricing_singleton (Api.after t0 history).
Proof.
  apply after_invariant.
  - intros t. exists num_199, num_85, t. now repeat split.
  - intros db e. apply pricing_singleton_step.
Qed.

Lemma verify_reply_message
  (payments_fetch : JS.value -> option Gateway.payment)
  (key : option string) (hmac : string -> string -> string)
  (paymentId orderId : JS.value) (lower : string) (reply : Http.outcome) :
  verify payments_fetch key hmac paymentId orderId lower = Some reply ->
  reply = Http.fail 400 "Payment verification failed."
  \/ reply = Http.fail 400 "Invalid payment or order ID.".
Proof.
  unfold verify, generatedSignature.
  destruct (JS.truthy paymentId && String.eqb lower "success");
    [|discriminate].
  destruct (payments_fetch paymentId) as [p|];
    [|intros E; injection E as <-; now left].
  destruct (_ || _); [intros E; injection E as <-; now right|].
  destruct key; [discriminate|].
  intros E. injection E as <-. now left.
Qed.

(** X8.  After a first start on an empty store the pricing table stays one row
    of key 1 with values in range, whatever requests and restarts follow.
    So no later request is answered that the pricing is missing:
    [GET /api/pricing] succeeds, [POST /api/pricing] never answers 404,
    and [POST /api/payment] never answers "No pricing data available." *)
Theorem pricing_never_missing (t0 : Z) (history : list Api.event) :
  let db := Api.after t0 history in
  pricing_singleton db
  /\ Http.succeeds (fst (get_pricing db))
  /\ (forall now body,
        ~ Http.NotFoundError (fst (post_pricing now body db)))
  /\ (forall w body,
        fst (Api.serve w (Api.PostPayment body) db)
        <> Http.fail 400 "No pricing data available.").
Proof.
  intros db. pose proof (pricing_singleton_after t0 history) as H.
  fold db in H. split; [exact H|].
  destruct H as [b [d [t [P [S R]]]]].
  split; [|split].
  - unfold get_pricing, Sql.select_pricing_limit_1. rewrite P. simpl.
    eexists. split; reflexivity.
  - intros now body [msg C]. revert C. unfold post_pricing.
    destruct (_ || _); [discriminate|].
    destruct (Num.isNaN _ || Num.leb _ num_0); [discriminate|].
    destruct (Num.isNaN _ || Num.ltb _ num_0 || Num.gtb _ num_100);
      [discriminate|].
    unfold Sql.update_pricing_id_1. rewrite P. simpl. discriminate.
  - intros w body. simpl.
    destruct (format_valid body) eqn:V.
    + destruct (format_valid_status body V) as [raw [St _]].
      rewrite (post_payment_valid _ _ _ body db raw V St), P.
      destruct (negb (amount_matches body _)); [simpl; discriminate|].
      destruct (verify _ _ _ _ _ _) as [reply|] eqn:Q; [|discriminate].
      destruct (verify_reply_message _ _ _ _ _ _ _ Q) as [-> | ->];
        discriminate.
    + destruct (post_payment_invalid (Api.payments_fetch w)
                  (Api.key_secret w) (Api.hmac_sha256_hex w) body db V)
        as [[msg [I E]]|[_ [e E]]]; rewrite E; [|discriminate].
      simpl. intros C. injection C as C. subst msg.
      repeat (destruct I as [I|I]; [discriminate|]). destruct I.
Qed.

Lemma Forall_update (P : Payment.row -> Prop) (hit : Payment.row -> bool)
  (f : Payment.row -> Payment.row) (l : list Payment.row) :
  (forall r, P r -> P (f r)) ->
  Forall P l -> Forall P (map (fun r => if hit r then f r else r) l).
Proof.
  intros F H. induction H as [|r l Hr H IH]; simpl; constructor.
  - destruct (hit r); [now apply F | exact Hr].
  - exact IH.
Qed.

(** A property of rows that a checked new row has and that a change of
    status to one of the three words keeps holds of every row, always. *)
Lemma rows_invariant (P : Payment.row -> Prop) :
  (forall row,
      identity_clean row -> status_known row -> amount_at_snapshot row ->
      P row) ->
  (forall s r,
      Str.includes validStatuses s = true -> P r ->
      P (Payment.set_status s r)) ->
  forall t0 history, Forall P (payments (Api.after t0 history)).
Proof.
  intros New Upd.
  apply (after_invariant (fun db => Forall P (payments db))).
  - intros t. constructor.
  - intros db e H.
    destruct (apply_effect db e)
      as [E|[[_ [now E]]|[[b [d [now [_ E]]]]|[[row [_ [I [K [M E]]]]]
         |[hit [lower [V E]]]]]]];
      rewrite E; simpl; try exact H.
    + apply Forall_app. split; [exact H|].
      constructor; [now apply New | constructor].
    + apply Forall_update; [|exact H]. intros r. now apply Upd.
Qed.

(** X9.  Every recorded payment keeps what the validations established, for
    good: its phone is ten digits, its e-mail has the shape the pattern
    asks for, and its name, payment id and order id hold only characters
    of the class of the sanitizer. *)
Theorem recorded_identity_is_clean (t0 : Z) (history : list Api.event) :
  Forall identity_clean (payments (Api.after t0 history)).
Proof.
  apply rows_invariant.
  - intros row I _ _. exact I.
  - intros s r _ I. exact I.
Qed.

(** X10.  The status of every recorded payment is one of "pending", "success"
    and "failed" up to letter case, after any history of submissions and
    status updates. *)
Theorem recorded_status_is_known (t0 : Z) (history : list Api.event) :
  Forall status_known (payments (Api.after t0 history)).
Proof.
  apply rows_invariant.
  - intros row _ K _. exact K.
  - intros s r V _. unfold status_known. simpl.
    now rewrite (valid_status_lower s V).
Qed.

(** X11.  Every payment recorded with an amount sent as text stays
    consistent with the pricing it was made under: the amount, with two
    decimals, is the final price of the base price and discount stored
    in the same row, whatever price changes and status updates came
    later.  (An amount sent as a number is rewritten by the TEXT column
    and is left out.) *)
Theorem recorded_amount_matches_snapshot
  (t0 : Z) (history : list Api.event) :
  Forall text_amount_at_snapshot (payments (Api.after t0 history)).
Proof.
  apply rows_invariant.
  - intros row _ _ M. unfold text_amount_at_snapshot.
    now destruct (Payment.amount row).
  - intros s r _ M. exact M.
Qed.

(** ** The two tables are separate *)

(** X12.  A change of price never touches the payments, and a submission or a
    status update never touches the pricing: [POST /api/pricing] leaves
    the payments and both counters as they were and keeps the keys of
    the pricing rows; [POST /api/payment] and [PATCH /api/payment/:id]
    leave the pricing table and its counter as they were. *)
Theorem tables_are_separate (w : Api.world) (db : store) :
  (forall now body,
      let db' := snd (post_pricing now body db) in
      payments db' = payments db
      /\ payments_seq db' = payments_seq db
      /\ pricing_seq db' = pricing_seq db
      /\ map Pricing.id (pricing db') = map Pricing.id (pricing db))
  /\ (forall body,
        let db' := snd (Api.serve w (Api.PostPayment body) db) in
        pricing db' = pricing db /\ pricing_seq db' = pricing_seq db)
  /\ (forall id status,
        let db' := snd (Api.serve w (Api.PatchPayment id status) db) in
        pricing db' = pricing db /\ pricing_seq db' = pricing_seq db).
Proof.
  split; [|split].
  - intros now body db'. subst db'.
    destruct (post_pricing_store now body db) as [E|[b [d [_ E]]]];
      rewrite E; [now repeat split|].
    simpl. repeat split. rewrite map_map. apply map_ext.
    intros r. now destruct (Pricing.id r =? 1).
  - intros body db'. subst db'. simpl.
    destruct (post_payment_outcome (Api.payments_fetch w)
                (Api.key_secret w) (Api.hmac_sha256_hex w) body db)
      as [[E _]|[raw [r [rest [_ [_ [_ [_ E]]]]]]]]; rewrite E; now split.
  - intros id status db'. subst db'. simpl.
    destruct (patch_payment_store (Api.key_equals w) id status db)
      as [E|[lower [_ E]]]; rewrite E; now split.
Qed.

(** ** Payments are never removed *)

Lemma Forall2_same_but_status_refl (l : list Payment.row) :
  Forall2 Payment.same_but_status l l.
Proof.
  induction l; constructor; [apply PaymentFacts.same_but_status_refl|].
  assumption.
Qed.

Lemma same_but_status_trans (a b c : Payment.row) :
  Payment.same_but_status a b -> Payment.same_but_status b c ->
  Payment.same_but_status a c.
Proof.
  unfold Payment.same_but_status. intros H1 H2.
  repeat match goal with H : _ /\ _ |- _ => destruct H end.
  repeat split; congruence.
Qed.

Lemma Forall2_same_but_status_trans (l1 : list Payment.row) :
  forall l2 l3,
    Forall2 Payment.same_but_status l1 l2 ->
    Forall2 Payment.same_but_status l2 l3 ->
    Forall2 Payment.same_but_status l1 l3.
Proof.
  induction l1 as [|a l1 IH]; intros l2 l3 H1 H2.
  - inversion H1; subst. inversion H2; subst. constructor.
  - inversion H1; subst. inversion H2; subst. constructor.
    + eapply same_but_status_trans; eassumption.
    + eapply IH; eassumption.
Qed.

Lemma update_keeps_rows (hit : Payment.row -> bool) (s : string)
  (l : list Payment.row) :
  Forall2 Payment.same_but_status l
          (map (fun r => if hit r then Payment.set_status s r else r) l).
Proof.
  induction l as [|r l IH]; simpl; constructor; [|exact IH].
  destruct (hit r); [apply PaymentFacts.set_status_same|].
  apply PaymentFacts.same_but_status_refl.
Qed.

Lemma apply_keeps_rows (db : store) (e : Api.event) :
  exists kept added,
    payments (Api.apply db e) = (kept ++ added)%list
    /\ Forall2 Payment.same_but_status (payments db) kept.
Proof.
  destruct (apply_effect db e)
    as [E|[[_ [now E]]|[[b [d [now [_ E]]]]|[[row [_ [_ [_ [_ E]]]]]
       |[hit [lower [_ E]]]]]]];
    rewrite E; simpl.
  - exists (payments db), []. rewrite app_nil_r.
    split; [reflexivity | apply Forall2_same_but_status_refl].
  - exists (payments db), []. rewrite app_nil_r.
    split; [reflexivity | apply Forall2_same_but_status_refl].
  - exists (payments db), []. rewrite app_nil_r.
    split; [reflexivity | apply Forall2_same_but_status_refl].
  - exists (payments db), [row].
    split; [reflexivity | apply Forall2_same_but_status_refl].
  - eexists _, []. rewrite app_nil_r. split; [reflexivity|].
    apply update_keeps_rows.
Qed.

(** X13.  No request and no restart removes or reorders a payment, or changes
    anything but the status of one: after any events the payments of
    before are still there, first and in their order, each the same in
    every column except possibly [status]. *)
Theorem payments_append_only (history : list Api.event) : forall db,
  exists kept added,
    payments (fold_left Api.apply history db) = (kept ++ added)%list
    /\ Forall2 Payment.same_but_status (payments db) kept.
Proof.
  induction history as [|e h IH]; intros db; simpl.
  - exists (payments db), []. rewrite app_nil_r.
    split; [reflexivity | apply Forall2_same_but_status_refl].
  - destruct (apply_keeps_rows db e) as [k1 [a1 [E1 F1]]].
    destruct (IH (Api.apply db e)) as [k2 [a2 [E2 F2]]].
    rewrite E1 in F2. apply Forall2_app_inv_l in F2.
    destruct F2 as [k2a [k2b [Fa [Fb ->]]]].
    exists k2a, (k2b ++ a2)%list. split.
    + now rewrite E2, app_assoc.
    + eapply Forall2_same_but_status_trans; eassumption.
Qed.

(** ** The order route *)











(** ** The price shown is the price enforced *)

(** X17.  A well-formed submission whose amount, with two decimals, is the
    [finalPrice] that [GET /api/pricing] reports on the same store passes
    the amount check: it is saved, or refused by the verification of the
    payment and by nothing else.  Without a payment id, or with a status
    other than "success", it is always saved.  This is for a row the
    store driver can be given: the amount and the date of the request
    and the two numbers of the pricing row are none of NaN and the
    infinities. *)
Theorem advertised_price_accepted
  (payments_fetch : JS.value -> option Gateway.payment)
  (key : option string) (hmac : string -> string -> string)
  (body : PaymentBody.t) (db : store) (r : Pricing.row)
  (rest : list Pricing.row) (shown_b shown_d finalPrice : string) :
  pricing db = r :: rest ->
  finite (Pricing.basePrice r) = true ->
  finite (Pricing.discountPercentage r) = true ->
  bindable (PaymentBody.amount body) = true ->
  bindable (PaymentBody.date body) = true ->
  fst (get_pricing db)
    = Http.Sent (Http.mk 200 true None
                   (Http.PricingData shown_b shown_d finalPrice)) ->
  format_valid body = true ->
  Num.toFixed 2 (JS.parseFloat (PaymentBody.amount body)) = finalPrice ->
  let reply := fst (post_payment payments_fetch key hmac body db) in
  (reply = Http.ok "Payment saved."
   \/ reply = Http.fail 400 "Payment verification failed."
   \/ reply = Http.fail 400 "Invalid payment or order ID.")
  /\ (JS.truthy (PaymentBody.paymentId body) = false
      \/ JS.toLowerCase (PaymentBody.status body) <> Some "success" ->
      reply = Http.ok "Payment saved.").
Proof.
  intros P _ _ _ _ G V A reply. subst reply.
  destruct (format_valid_status body V) as [raw [S _]].
  rewrite (post_payment_valid _ _ _ body db raw V S).
  unfold get_pricing, Sql.select_pricing_limit_1 in G.
  rewrite P in *. simpl in G. injection G as _ _ G.
  assert (M : amount_matches body r = true).
  { unfold amount_matches, expectedFinalPrice. rewrite A, G.
    apply String.eqb_refl. }
  rewrite M. cbn [negb]. split.
  - destruct (verify _ _ _ _ _ _) as [reply|] eqn:Q; [|now left].
    right. simpl.
    destruct (verify_reply_message _ _ _ _ _ _ _ Q) as [-> | ->]; tauto.
  - intros H. rewrite verify_skipped; [reflexivity|].
    destruct H as [H|H]; [now left|]. right. rewrite S in H. simpl in H.
    congruence.
Qed.

Lemma advertised_price_accepted_witness :
  fst (post_payment gateway_down (Some "k") no_hmac
                    (request JS.Undefined "29.85" "pending") store_0)
  = Http.ok "Payment saved.".
Proof.
  apply (proj2 (advertised_price_accepted gateway_down (Some "k") no_hmac
                  (request JS.Undefined "29.85" "pending") store_0
                  (Pricing.mk 1 num_199 num_85 0) []
                  "199.00" "85.0" "29.85"
                  eq_refl eq_refl eq_refl eq_refl eq_refl
                  ltac:(vm_compute; reflexivity)
                  ltac:(vm_compute; reflexivity)
                  ltac:(vm_compute; reflexivity))).
  left. reflexivity.
Defined.

(** X18.  For two truthy fields whose numbers pass the range checks, with
    a base price that is not infinite (the store driver takes it), on a
    store whose first pricing row has the key 1, [POST /api/pricing]
    succeeds and the next [GET /api/pricing] reports the final price of
    the new values. *)
Theorem price_update_round_trip
  (now : Z) (body : PricingBody.t) (db : store)
  (r : Pricing.row) (rest : list Pricing.row) :
  JS.truthy (PricingBody.basePrice body) = true ->
  JS.truthy (PricingBody.discountPercentage body) = true ->
  pricing_in_range (JS.parseFloat (PricingBody.basePrice body))
                   (JS.parseFloat (PricingBody.discountPercentage body))
    = true ->
  finite (JS.parseFloat (PricingBody.basePrice body)) = true ->
  pricing db = r :: rest -> Pricing.id r = 1 ->
  let b := JS.parseFloat (PricingBody.basePrice body) in
  let d := JS.parseFloat (PricingBody.discountPercentage body) in
  let db' := snd (post_pricing now body db) in
  finite d = true
  /\ Http.succeeds (fst (post_pricing now body db))
  /\ exists shown_b shown_d,
       get_pricing db' =
       (Http.Sent (Http.mk 200 true None
          (Http.PricingData shown_b shown_d (Num.toFixed 2 (discounted b d)))),
        db').
Proof.
  intros Tb Td R F P K b d db'. split.
  - unfold pricing_in_range in R. apply andb_true_iff in R.
    destruct R as [_ R]. fold d in R. revert R. unfold num_0, num_100.
    destruct d as [s|s| |s m e]; try destruct s; simpl;
      try reflexivity; discriminate.
  - exact (post_pricing_then_get now body db r rest Tb Td R P K).
Qed.

Lemma price_update_round_trip_witness :
  let body := PricingBody.mk (JS.Str "250.5") (JS.Number (Num.of_Z 10)) in
  Http.succeeds (fst (post_pricing 7 body store_0))
  /\ exists shown_b shown_d,
       get_pricing (snd (post_pricing 7 body store_0)) =
       (Http.Sent (Http.mk 200 true None
          (Http.PricingData shown_b shown_d "225.45")),
        snd (post_pricing 7 body store_0)).
Proof.
  intros body.
  destruct (price_update_round_trip 7 body store_0
              (Pricing.mk 1 num_199 num_85 0) [])
    as [_ [S [b [d G]]]]; try reflexivity.
  split; [exact S|]. exists b, d. rewrite G. reflexivity.
Defined.
